(** * EssentialMixStats: the scraper's text-normalization engine

    A shallow embedding of [scraper.py]: the Link Parser ([parse_mix_link]),
    the Tracklist Splitter ([parse_tracklist]), the skip filter
    ([skip_track]), the Track Normalizer ([parse_tracks]) and the Category
    Cleaner (the category loop of [clean_data]).

    Conventions.
    - A Python [str] is a [string] of 8-bit characters.  The script is
      Python 2 ([len] is taken of the result of [filter]), where
      [requests] hands back byte strings and [str.strip()] removes the six
      ASCII whitespace characters.
    - A raised exception is the [Raise] constructor of [result]; no function
      modelled here catches one.
    - The regular expressions of the script are fixed, so each is embedded
      as the matcher it denotes, next to the pattern it comes from. *)

From Stdlib Require Import Strings.String Strings.Ascii Lists.List Bool.Bool
  Arith.Arith micromega.Lia.
Import ListNotations.
Open Scope list_scope.
Open Scope string_scope.

(** ** Exceptions *)

Inductive py_error : Type :=
| IndexError
| TypeError
| ValueError.

Inductive result (A : Type) : Type :=
| Ok (a : A)
| Raise (e : py_error).
Arguments Ok {A} a.
Arguments Raise {A} e.

Definition bind {A B : Type} (r : result A) (k : A -> result B) : result B :=
  match r with
  | Ok a => k a
  | Raise e => Raise e
  end.

Notation "x <- r ;; k" := (bind r (fun x => k))
  (at level 61, r at next level, right associativity).

(** ** Python string primitives *)

Module Py.

(** [c in " \t\n\r\x0b\x0c"]: what [str.strip()] removes. *)
Definition is_space (c : ascii) : bool :=
  let n := nat_of_ascii c in
  Nat.eqb n 32 || (Nat.leb 9 n && Nat.leb n 13).

Definition is_digit (c : ascii) : bool :=
  let n := nat_of_ascii c in
  Nat.leb 48 n && Nat.leb n 57.

Definition newline : ascii := ascii_of_nat 10.

Fixpoint lstrip (s : string) : string :=
  match s with
  | EmptyString => EmptyString
  | String c r => if is_space c then lstrip r else s
  end.

Fixpoint rstrip (s : string) : string :=
  match s with
  | EmptyString => EmptyString
  | String c r =>
      match rstrip r with
      | EmptyString => if is_space c then EmptyString else String c EmptyString
      | r' => String c r'
      end
  end.

(** [s.strip()] *)
Definition strip (s : string) : string := lstrip (rstrip s).

(** [s[n:]] *)
Fixpoint drop (n : nat) (s : string) : string :=
  match n, s with
  | O, _ => s
  | S n', EmptyString => EmptyString
  | S n', String _ r => drop n' r
  end.

(** [s[:n]] *)
Fixpoint take (n : nat) (s : string) : string :=
  match n, s with
  | O, _ => EmptyString
  | S n', EmptyString => EmptyString
  | S n', String c r => String c (take n' r)
  end.

(** [s.startswith(p)] *)
Fixpoint startswith (p s : string) : bool :=
  match p, s with
  | EmptyString, _ => true
  | String _ _, EmptyString => false
  | String a p', String b s' => Ascii.eqb a b && startswith p' s'
  end.

(** [sub in s] *)
Fixpoint contains (sub s : string) : bool :=
  startswith sub s ||
  match s with
  | EmptyString => false
  | String _ r => contains sub r
  end.

(** [s.replace(old, new)] for a non-empty [old]: occurrences are found left
    to right and do not overlap.  [skip] counts the characters of the
    occurrence just replaced that are still to be passed over. *)
Fixpoint replace_from (old new : string) (skip : nat) (s : string) : string :=
  match s with
  | EmptyString => EmptyString
  | String c r =>
      match skip with
      | S k => replace_from old new k r
      | O =>
          if startswith old s
          then new ++ replace_from old new (String.length old - 1) r
          else String c (replace_from old new 0 r)
      end
  end.

(** With an empty [old], Python puts [new] before every character and at
    the end. *)
Fixpoint intersperse (new s : string) : string :=
  match s with
  | EmptyString => new
  | String c r => new ++ String c (intersperse new r)
  end.

Definition replace (old new s : string) : string :=
  match old with
  | EmptyString => intersperse new s
  | String _ _ => replace_from old new 0 s
  end.

(** [s.split(sep)] for a non-empty [sep] (every separator of the script is a
    non-empty literal). *)
Fixpoint split_from (sep : string) (skip : nat) (s : string) : list string :=
  match s with
  | EmptyString => [EmptyString]
  | String c r =>
      match skip with
      | S k => split_from sep k r
      | O =>
          if startswith sep s
          then EmptyString :: split_from sep (String.length sep - 1) r
          else
            match split_from sep 0 r with
            | h :: t => String c h :: t
            | [] => [String c EmptyString]
            end
      end
  end.

Definition split (sep s : string) : list string := split_from sep 0 s.

(** [x in xs] for a list of strings *)
Definition mem (x : string) (xs : list string) : bool :=
  existsb (String.eqb x) xs.

(** [xs.index(x)] when [x in xs] *)
Fixpoint index (x : string) (xs : list string) : nat :=
  match xs with
  | [] => 0
  | y :: ys => if String.eqb y x then 0 else S (index x ys)
  end.

(** [xs[a:b]] for [0 <= a], [0 <= b] *)
Definition slice {A : Type} (a b : nat) (xs : list A) : list A :=
  firstn (b - a) (skipn a xs).

(** [filter(None, xs)] on strings: the empty string is the only falsy one. *)
Definition filter_truthy (xs : list string) : list string :=
  filter (fun s => negb (String.eqb s EmptyString)) xs.

End Py.

(** ** The regular expressions of the Track Normalizer *)

Module Re.

(** Longest prefix of characters satisfying [p], and what follows it. *)
Fixpoint span (p : ascii -> bool) (s : string) : string * string :=
  match s with
  | EmptyString => (EmptyString, EmptyString)
  | String c r =>
      if p c then let (a, b) := span p r in (String c a, b)
      else (EmptyString, s)
  end.

(** The class [[\d|\?|:]]: a digit, a bar, a question mark or a colon. *)
Definition is_stamp_char (c : ascii) : bool :=
  Py.is_digit c || Ascii.eqb c "|" || Ascii.eqb c "?" || Ascii.eqb c ":".

(** [re.sub('^\[[\d|\?|:]+\]', '', s)].  The class excludes the closing
    bracket, so the greedy run is the only candidate. *)
Definition sub_timestamp (s : string) : string :=
  match s with
  | String "[" r =>
      match span is_stamp_char r with
      | (String _ _, String "]" rest) => rest
      | _ => s
      end
  | _ => s
  end.

(** [re.sub('^\d+\.', '', s)] *)
Definition sub_ordinal (s : string) : string :=
  match span Py.is_digit s with
  | (String _ _, String "." rest) => rest
  | _ => s
  end.

(** [re.sub('\?+', '', s)]: every question mark goes. *)
Fixpoint sub_qmarks (s : string) : string :=
  match s with
  | EmptyString => EmptyString
  | String c r =>
      if Ascii.eqb c "?" then sub_qmarks r else String c (sub_qmarks r)
  end.

(** [$]: at the end of the string, or before a newline that ends it. *)
Definition at_end (s : string) : bool :=
  match s with
  | EmptyString => true
  | String c EmptyString => Ascii.eqb c Py.newline
  | _ => false
  end.

(** [.+\]$] matched at the start of [s]; the text matched.  A dot takes
    anything but a newline; the pattern ends where a closing bracket is
    followed by the end, and there is one such place at most. *)
Fixpoint dots_close (s : string) : option string :=
  match s with
  | EmptyString => None
  | String c r =>
      if Ascii.eqb c Py.newline then None
      else if Py.startswith "]" r && at_end (Py.drop 1 r)
      then Some (String c "]")
      else option_map (String c) (dots_close r)
  end.

(** [LABEL_REGEX.search(s)] with [LABEL_REGEX = re.compile('(\[.+\]$)')]:
    group 0 of the leftmost match. *)
Fixpoint label_search (s : string) : option string :=
  match s with
  | EmptyString => None
  | String c r =>
      if Ascii.eqb c "[" then
        match dots_close r with
        | Some m => Some (String "[" m)
        | None => label_search r
        end
      else label_search r
  end.

End Re.

(** ** Track Normalizer *)

(** [skip_track]: true for a line that is kept.  [track[0]] raises on the
    empty string. *)
Definition skip_track (track : string) : result bool :=
  let skip := existsb (fun skip_line => Py.contains skip_line track)
                      ["<list>"; "</list>"] in
  match track with
  | EmptyString => Raise IndexError
  | String c _ =>
      let section := Ascii.eqb c ";" in
      let empty := String.eqb (Py.strip track) "" in
      Ok (negb (skip || section || empty))
  end.

(** [filter(f, xs)] where [f] may raise. *)
Fixpoint filter_r {A : Type} (f : A -> result bool) (xs : list A)
  : result (list A) :=
  match xs with
  | [] => Ok []
  | x :: r =>
      b <- f x ;;
      r' <- filter_r f r ;;
      Ok (if b then x :: r' else r')
  end.

(** One turn of the loop over [["''", "* ", "+ "]]. *)
Definition strip_token (processed_track remove : string) : string :=
  if String.eqb (Py.take 2 processed_track) remove
  then Py.strip (Py.drop 2 processed_track)
  else processed_track.

(** The loop "remove leading superfluous characters": it has no [break]. *)
Definition strip_noise (processed_track : string) : string :=
  fold_left strip_token ["''"; "* "; "+ "] processed_track.

(** Lines 209-221: the leading hash, timestamp, ordinal and noise tokens. *)
Definition strip_leading (raw_track : string) : result string :=
  match raw_track with
  | EmptyString => Raise IndexError
  | String c r =>
      let processed_track :=
        if Ascii.eqb c "#" then Py.strip r else raw_track in
      let processed_track := Py.strip (Re.sub_timestamp processed_track) in
      let processed_track := Py.strip (Re.sub_ordinal processed_track) in
      Ok (strip_noise processed_track)
  end.

(** The loop over [[' Feat.', ' Featuring']]. *)
Definition cut_feat (artist feat : string) : string :=
  if Py.contains feat artist then hd EmptyString (Py.split feat artist)
  else artist.

(** Lines 227-231: the label search.  The line without the label, and the
    label without its brackets. *)
Definition extract_label (processed_track : string) : string * string :=
  let label :=
    match Re.label_search processed_track with
    | Some m => m
    | None => ""
    end in
  if negb (String.eqb label "")
  then (Py.strip (Py.replace label "" processed_track),
        Py.strip (Py.replace "]" "" (Py.replace "[" "" label)))
  else (processed_track, label).

(** Lines 223-243: from the cleaned line to [[artist, track, label]]. *)
Definition extract_fields (processed_track : string) : list string :=
  if negb (String.eqb (Py.strip (Re.sub_qmarks processed_track)) "") then
    let '(processed_track, label) := extract_label processed_track in
    let segments := Py.split " - " processed_track in
    match segments with
    | s0 :: s1 :: _ =>
        let artist := fold_left cut_feat [" Feat."; " Featuring"] (Py.strip s0) in
        let track := Py.strip s1 in
        [artist; track; label]
    | _ => ["unknown"; "unknown"; label]
    end
  else ["unknown"; "unknown"; "unknown"].

(** The body of the loop of [parse_tracks]. *)
Definition parse_track (raw_track : string) : result (list string) :=
  processed_track <- strip_leading raw_track ;;
  Ok (extract_fields processed_track).

Fixpoint map_r {A B : Type} (f : A -> result B) (xs : list A)
  : result (list B) :=
  match xs with
  | [] => Ok []
  | x :: r =>
      y <- f x ;;
      r' <- map_r f r ;;
      Ok (y :: r')
  end.

(** What [parse_tracks] prints when the counts differ. *)
Inductive log_line : Type :=
| LogCounts (parsed total : nat)
| LogTrack (track : string)
| LogParsed (parsed : list string)
| LogNoTrack.

Fixpoint report (tracks : list string) (parsed_tracks : list (list string))
  : list log_line :=
  match tracks with
  | [] => []
  | t :: ts =>
      match parsed_tracks with
      | p :: ps => LogTrack t :: LogParsed p :: report ts ps
      | [] => LogTrack t :: LogNoTrack :: report ts []
      end
  end.

(** [parse_tracks], on the value of [mix_data.get('tracks', [])]: the parsed
    tracks and the lines printed. *)
Definition parse_tracks (raw : list string)
  : result (list (list string) * list log_line) :=
  tracks <- filter_r skip_track raw ;;
  parsed_tracks <- map_r parse_track tracks ;;
  let fully_parsed := Nat.eqb (length parsed_tracks) (length tracks) in
  let log :=
    if negb fully_parsed
    then LogCounts (length parsed_tracks) (length tracks)
         :: report tracks parsed_tracks
    else [] in
  Ok (parsed_tracks, log).

(** ** Tracklist Splitter *)

(** The third component of the result: [False], [True], or the text of the
    second line. *)
Inductive duplicate_flag : Type :=
| DupBool (b : bool)
| DupText (s : string).

(** [next((i for i, l in enumerate(lines) if p(l)), len(lines))] *)
Fixpoint first_index (p : string -> bool) (lines : list string) : nat :=
  match lines with
  | [] => 0
  | l :: r => if p l then 0 else S (first_index p r)
  end.

(** [xs[i]] *)
Definition item (xs : list string) (i : nat) : result string :=
  match nth_error xs i with
  | Some x => Ok x
  | None => Raise IndexError
  end.

Definition clean_category (c : string) : string :=
  Py.strip (Py.replace "]]" "" (Py.replace "[[Category:" "" c)).

Definition nl : string := String Py.newline EmptyString.

(** [parse_tracklist]: tracklist, categories ([None] as [None]) and the
    duplicate flag.  The loop over [categories] runs whether or not the
    header was found. *)
Definition parse_tracklist (text : string)
  : result (option (list string) * option (list string) * duplicate_flag) :=
  let lines := Py.split nl text in
  line0 <- item lines 0 ;;
  if existsb (fun message => Py.contains message line0) ["Fake"; "Repeat"]
  then
    line1 <- item lines 1 ;;
    Ok (None, None, DupText (Py.replace " |Original  =" "" line1))
  else
    let category_index := first_index (Py.contains "[[Category:") lines in
    let '(tracklist, categories) :=
      if Py.mem "== Tracklist ==" lines
      then
        (Some (Py.filter_truthy
                 (Py.slice (Py.index "== Tracklist ==" lines + 1)
                           category_index lines)),
         Some (map clean_category
                 (Py.filter_truthy (skipn category_index lines))))
      else (None, None) in
    match categories with
    | None => Raise TypeError
    | Some cs =>
        let duplicate :=
          fold_left
            (fun d category =>
               if Py.contains "{{Repeated|" category then DupBool true else d)
            cs (DupBool false) in
        Ok (tracklist, categories, duplicate)
    end.

(** ** Fixed-width patterns *)

Module Pat.

Definition lit (c : ascii) : ascii -> bool := Ascii.eqb c.
Definition d : ascii -> bool := Py.is_digit.

Fixpoint lits (s : string) : list (ascii -> bool) :=
  match s with
  | EmptyString => []
  | String c r => lit c :: lits r
  end.

(** [regex.match(s)] for a pattern that is a sequence of one-character
    classes: the pattern has to match at the start of [s] only. *)
Fixpoint matches (p : list (ascii -> bool)) (s : string) : bool :=
  match p with
  | [] => true
  | q :: p' =>
      match s with
      | EmptyString => false
      | String c r => q c && matches p' r
      end
  end.

(** [regex.search(s)], group 0 *)
Fixpoint search (p : list (ascii -> bool)) (s : string) : option string :=
  if matches p s then Some (Py.take (length p) s)
  else
    match s with
    | EmptyString => None
    | String _ r => search p r
    end.

End Pat.

(** ** Link Parser *)

(** [DATE_REGEX = re.compile('(\d{4}-\d{2}-\d{2})')] *)
Definition DATE_REGEX : list (ascii -> bool) :=
  [Pat.d; Pat.d; Pat.d; Pat.d; Pat.lit "-"; Pat.d; Pat.d; Pat.lit "-";
   Pat.d; Pat.d].

Definition MIXES_TO_IGNORE : list string :=
  ["/w/1998-01_-_David_Holmes_-_Essential_Mix";
   "/w/2000_-_Fran%C3%A7ois_K_-_Essential_Mix"].

(** The two attributes [parse_mix_link] reads from the tag. *)
Record link_tag : Type := { href : string; title : string }.

Record mix_info : Type :=
  { date : string; artists : list string; venue : string }.

(** [xs[1] = v] *)
Definition set_item1 (xs : list string) (v : string) : result (list string) :=
  match xs with
  | x0 :: _ :: r => Ok (x0 :: v :: r)
  | _ => Raise IndexError
  end.

(** [parse_mix_link]: [None] stands for the pair [(None, None)]. *)
Definition parse_mix_link (tag : link_tag)
  : result (option (string * mix_info)) :=
  let mix_url := href tag in
  if Py.mem mix_url MIXES_TO_IGNORE then Ok None
  else
    let title :=
      Py.replace "(Essential Mix)" "" (Py.replace " - Essential Mix" "" (title tag)) in
    let segments := Py.split " - " title in
    segment0 <- item segments 0 ;;
    date_segments <-
      (if Nat.eqb (String.length segment0) 10 then Ok (segment0, segments)
       else
         match Pat.search DATE_REGEX title with
         | Some date =>
             segment1 <- item segments 1 ;;
             segments' <-
               set_item1 segments
                 (Py.replace ("(Essential Mix, " ++ date ++ ")") "" segment1) ;;
             Ok (date, segments')
         | None => Ok ("", segments)
         end) ;;
    let '(date, segments) := date_segments in
    segment1 <- item segments 1 ;;
    let artist_venue := Py.split " @ " segment1 in
    artist_part <- item artist_venue 0 ;;
    let artists := map Py.strip (Py.split "," artist_part) in
    venue <-
      (if Nat.ltb 1 (length artist_venue)
       then v <- item artist_venue 1 ;; Ok (Py.strip v)
       else Ok "") ;;
    Ok (Some (mix_url, {| date := date; artists := artists; venue := venue |})).

(** ** Category Cleaner *)

(** [UNNECESSARY_CATEGORIES]:
    ['Essential Mix\|\d\d\d\d-\d\d-\d\d'] and ['Ibiza \d\d\d\d']. *)
Definition UNNECESSARY_CATEGORIES : list (list (ascii -> bool)) :=
  [(Pat.lits "Essential Mix|"
      ++ [Pat.d; Pat.d; Pat.d; Pat.d; Pat.lit "-"; Pat.d; Pat.d; Pat.lit "-";
          Pat.d; Pat.d])%list;
   (Pat.lits "Ibiza " ++ [Pat.d; Pat.d; Pat.d; Pat.d])%list].

Definition venue_categories : list string :=
  ["Cream"; "Privilege (Ibiza)"; "Unknown Gig / Location"; "Space (Ibiza)";
   "Que Club"; "Ministry Of Sound"; "Glastonbury Festival"; "One Big Weekend";
   "Creamfields"; "Gatecrasher"; "Homelands"; "Surfcomber Hotel"; "WMC";
   "The Warehouse Project"; "Amnesia (Ibiza)"; "Pacha (Ibiza)";
   "Sankeys (Ibiza)"].

Definition artist_categories : list string :=
  ["Pete Tong"; "Carl Cox"; "Various"; "John Digweed"; "Danny Rampling";
   "Annie Mac"; "Chemical Brothers"; "Judge Jules"; "Sasha"; "Fergie";
   "Dave Pearce"; "Fatboy Slim"; "Paul Oakenfold"; "Seb Fontaine";
   "Eddie Halliwell"; "Eric Prydz"].

(** [remove_categories].  The script passes the first four parts through
    [list(set(...))]; the list is only asked for membership, so order and
    repetitions are kept as written. *)
Definition remove_categories (artists : list string) (date : string)
  : list string :=
  ((["Essential Mix"] ++ artists ++ artist_categories ++ venue_categories)
     ++ [Py.take 4 date])%list.

(** [xs.remove(x)]: the first occurrence goes; [ValueError] without one. *)
Fixpoint list_remove (x : string) (xs : list string) : result (list string) :=
  match xs with
  | [] => Raise ValueError
  | y :: r =>
      if String.eqb y x then Ok r
      else r' <- list_remove x r ;; Ok (y :: r')
  end.

(** The body of the loop over [value['categories']]. *)
Definition clean_step (removal : list string)
  (categories : result (list string)) (category : string)
  : result (list string) :=
  cs <- categories ;;
  cs <- (if Py.mem (Py.strip category) removal
         then list_remove category cs else Ok cs) ;;
  fold_left
    (fun acc regex =>
       cs <- acc ;;
       if Pat.matches regex category then list_remove category cs else Ok cs)
    UNNECESSARY_CATEGORIES (Ok cs).

(** Lines 357-369 of [clean_data]: the new [value['categories']]. *)
Definition clean_categories (artists : list string) (date : string)
  (value_categories : list string) : result (list string) :=
  fold_left (clean_step (remove_categories artists date))
            value_categories (Ok value_categories).

(** ** Catalogue walk: the loop over the links of a page *)

(** A [dict] with string keys, as the list of its items.  [d[k] = v]
    replaces the value of a key already there and adds the item
    otherwise. *)
Fixpoint dict_set {V : Type} (k : string) (v : V) (d : list (string * V))
  : list (string * V) :=
  match d with
  | [] => [(k, v)]
  | (k', v') :: r =>
      if String.eqb k' k then (k, v) :: r else (k', v') :: dict_set k v r
  end.

(** [d.get(k)] *)
Fixpoint dict_get {V : Type} (k : string) (d : list (string * V)) : option V :=
  match d with
  | [] => None
  | (k', v) :: r => if String.eqb k' k then Some v else dict_get k r
  end.

(** The body of [for link in mix_links] in [get_tracklist_links]: the
    [try] swallows whatever [parse_mix_link] raises, and the entry is stored
    when the url is a non-empty string (the dictionary beside it always is
    truthy). *)
Definition add_link (data : list (string * mix_info)) (link : link_tag)
  : list (string * mix_info) :=
  match parse_mix_link link with
  | Ok (Some (mix_url, mix_data)) =>
      if negb (String.eqb mix_url "") then dict_set mix_url mix_data data
      else data
  | Ok None => data
  | Raise _ => data
  end.

Definition add_links (data : list (string * mix_info))
  (mix_links : list link_tag) : list (string * mix_info) :=
  fold_left add_link mix_links data.

(** ** Mix Record Builder: [has_data] and [parse_tracklists] *)

Module Mix.

(** The exceptions of this stage: a missing key, a method called on [None],
    or one raised by the parsers. *)
Inductive exc : Type :=
| KeyError (key : string)
| AttributeError
| Inner (e : py_error).

Inductive outcome (A : Type) : Type :=
| Done (a : A)
| Failed (e : exc).
Arguments Done {A} a.
Arguments Failed {A} e.

Definition andThen {A B : Type} (o : outcome A) (k : A -> outcome B)
  : outcome B :=
  match o with
  | Done a => k a
  | Failed e => Failed e
  end.

Definition lift {A : Type} (r : result A) : outcome A :=
  match r with
  | Ok a => Done a
  | Raise e => Failed (Inner e)
  end.

(** [d[key]] for a key that may be absent. *)
Definition get {A : Type} (key : string) (field : option A) : outcome A :=
  match field with
  | Some a => Done a
  | None => Failed (KeyError key)
  end.

(** The working record of a mix.  The three keys written by
    [parse_mix_link] are always there; each of the others is absent
    ([None]) until a stage writes it, and [tracklist], [tracks] and
    [categories] can hold Python's [None] (the inner [None]). *)
Record data : Type :=
  { info : mix_info;
    tracklist : option (option string);
    categories : option (option (list string));
    tracks : option (option (list string));
    duplicate : option duplicate_flag;
    processed_tracks : option (list (list string)) }.

(** Truth value of the flag, as [if not mix_data['duplicate']] takes it. *)
Definition truthy (d : duplicate_flag) : bool :=
  match d with
  | DupBool b => b
  | DupText s => negb (String.eqb s "")
  end.

(** [d != False]: a string never equals [False]. *)
Definition not_False (d : duplicate_flag) : bool :=
  match d with
  | DupBool b => b
  | DupText _ => true
  end.

(** ['k' in mix_data and mix_data['k'] and len(mix_data['k']) > 0] *)
Definition filled (field : option (option (list string))) : bool :=
  match field with
  | Some (Some (_ :: _)) => true
  | _ => false
  end.

(** [has_data], as a truth value.  Nothing in its body can raise on a
    record of this shape, so its [except] branch is not taken. *)
Definition has_data (mix_data : data) : bool :=
  let tracks := filled (tracks mix_data) in
  let categories := filled (categories mix_data) in
  let duplicate :=
    match duplicate mix_data with
    | Some d => not_False d
    | None => false
    end in
  (tracks && categories) || duplicate.

(** What the stage prints. *)
Inductive printed : Type :=
| PrintUrl (s : string)
| PrintLog (l : log_line).

(** [parse_tracks(mix_data)]: [mix_data.get('tracks', [])] is the empty
    list for an absent key, and [filter] over [None] raises [TypeError]. *)
Definition parse_tracks_of (mix_data : data)
  : outcome (list (list string) * list log_line) :=
  match tracks mix_data with
  | None => lift (parse_tracks [])
  | Some None => Failed (Inner TypeError)
  | Some (Some raw) => lift (parse_tracks raw)
  end.

(** Lines 265-270, the first [if] of the loop of [parse_tracklists]: a
    record without data is parsed from its text. *)
Definition ensure_parsed (mix_data : data) : outcome data :=
  if negb (has_data mix_data) then
    andThen (get "tracklist" (tracklist mix_data)) (fun text =>
    match text with
    | None => Failed AttributeError
    | Some text =>
        andThen (lift (parse_tracklist text)) (fun r =>
        let '(tracks, categories, duplicate) := r in
        Done {| info := info mix_data;
                tracklist := tracklist mix_data;
                categories := Some categories;
                tracks := Some tracks;
                duplicate := Some duplicate;
                processed_tracks := processed_tracks mix_data |})
    end)
  else Done mix_data.

(** Lines 272-277, the other two: the url of a record still without data
    is printed, and the tracks of a record that is not a duplicate are
    normalized. *)
Definition process (url : string) (mix_data : data)
  : outcome (data * list printed) :=
  let out1 :=
    if negb (has_data mix_data)
    then [PrintUrl ("https://www.mixesdb.com" ++ url)] else [] in
  andThen (get "duplicate" (duplicate mix_data)) (fun d =>
  if negb (truthy d) then
    andThen (parse_tracks_of mix_data) (fun r =>
    let '(parsed_tracks, log) := r in
    Done ({| info := info mix_data;
             tracklist := tracklist mix_data;
             categories := categories mix_data;
             tracks := tracks mix_data;
             duplicate := duplicate mix_data;
             processed_tracks := Some parsed_tracks |},
          (out1 ++ map PrintLog log)%list))
  else Done (mix_data, out1)).

(** The body of the loop of [parse_tracklists] for one item of [data]. *)
Definition parse_mix (url : string) (mix_data : data)
  : outcome (data * list printed) :=
  andThen (ensure_parsed mix_data) (process url).

(** [parse_tracklists]: the items in turn; nothing is caught. *)
Fixpoint parse_tracklists (items : list (string * data))
  : outcome (list (string * data) * list printed) :=
  match items with
  | [] => Done ([], [])
  | (url, mix_data) :: rest =>
      andThen (parse_mix url mix_data) (fun r =>
      andThen (parse_tracklists rest) (fun rs =>
      Done ((url, fst r) :: fst rs, (snd r ++ snd rs)%list)))
  end.

(** ** Final export: [clean_data] *)

(** [.*?\}] after the marker: lazily up to the first closing brace, which no
    newline may precede. *)
Fixpoint until_brace (s : string) : option string :=
  match s with
  | EmptyString => None
  | String c r =>
      if Ascii.eqb c "}" then Some EmptyString
      else if Ascii.eqb c Py.newline then None
      else option_map (String c) (until_brace r)
  end.

(** [LENGTH_REGEX.search(s)], group 1, with
    [LENGTH_REGEX = re.compile('StandardShow(.*?)\}')]. *)
Fixpoint length_search (s : string) : option string :=
  match
    (if Py.startswith "StandardShow" s
     then until_brace (Py.drop 12 s) else None)
  with
  | Some m => Some m
  | None =>
      match s with
      | EmptyString => None
      | String _ r => length_search r
      end
  end.

(** The record [clean_data] appends: the keys left in [value]. *)
Record finished : Type :=
  { f_date : string;
    f_artists : list string;
    f_length : string;
    f_categories : list string;
    f_tracklist : list (list string);
    f_duplicate : duplicate_flag;
    f_url : string }.

(** The body of the loop of [clean_data] for an item that is not a
    duplicate, in the order in which the keys are read and deleted. *)
Definition clean_value (key : string) (value : data) (d : duplicate_flag)
  : outcome finished :=
  andThen (get "tracklist" (tracklist value)) (fun text =>
  match text with
  | None => Failed (Inner TypeError)
  | Some text =>
      let length :=
        match length_search text with
        | Some m => m
        | None => "?"
        end in
      andThen (get "categories" (categories value)) (fun cs =>
      match cs with
      | None => Failed (Inner TypeError)
      | Some cs =>
          andThen (lift (clean_categories (artists (info value))
                                          (date (info value)) cs))
          (fun categories =>
          andThen (get "processed_tracks" (processed_tracks value))
          (fun processed =>
          andThen (get "tracks" (tracks value)) (fun _ =>
          Done {| f_date := date (info value);
                  f_artists := artists (info value);
                  f_length := length;
                  f_categories := categories;
                  f_tracklist := processed;
                  f_duplicate := d;
                  f_url := key |})))
      end)
  end).

(** [clean_data]: the list that is written to the output file. *)
Fixpoint clean_data (items : list (string * data))
  : outcome (list finished) :=
  match items with
  | [] => Done []
  | (key, value) :: rest =>
      andThen (get "duplicate" (duplicate value)) (fun d =>
      if negb (truthy d) then
        andThen (clean_value key value d) (fun f =>
        andThen (clean_data rest) (fun fs => Done (f :: fs)))
      else clean_data rest)
  end.

(** A record as [get_tracklists] leaves it: the text fetched, nothing
    parsed yet. *)
Definition fetched (i : mix_info) (text : string) : data :=
  {| info := i; tracklist := Some (Some text); categories := None;
     tracks := None; duplicate := None; processed_tracks := None |}.

End Mix.

(** ** Notions used to state the properties *)

(** The line is kept by [skip_track]. *)
Definition kept (track : string) : bool :=
  match skip_track track with
  | Ok b => b
  | Raise _ => false
  end.

(** The cleaned line of a non-empty raw line. *)
Definition cleaned (raw_track : string) : string :=
  match strip_leading raw_track with
  | Ok p => p
  | Raise _ => ""
  end.

(** [s] without the character [a]. *)
Fixpoint delete_char (a : ascii) (s : string) : string :=
  match s with
  | EmptyString => EmptyString
  | String c r =>
      if Ascii.eqb c a then delete_char a r else String c (delete_char a r)
  end.

(** [s] without any square bracket. *)
Definition delete_brackets (s : string) : string :=
  delete_char "]" (delete_char "[" s).

(** The character [c] occurs in [s]. *)
Fixpoint occurs (c : ascii) (s : string) : Prop :=
  match s with
  | EmptyString => False
  | String a r => a = c \/ occurs c r
  end.

(** Some pattern of [UNNECESSARY_CATEGORIES] matches the category. *)
Definition unnecessary (category : string) : bool :=
  existsb (fun regex => Pat.matches regex category) UNNECESSARY_CATEGORIES.

(** The category is one the cleaner is to remove. *)
Definition removed (removal : list string) (category : string) : bool :=
  Py.mem (Py.strip category) removal || unnecessary category.

(** The title without the boilerplate, as [parse_mix_link] splits it. *)
Definition bare_title (tag : link_tag) : string :=
  Py.replace "(Essential Mix)" "" (Py.replace " - Essential Mix" "" (title tag)).

(** The lines that get through the skip filter, written out: a line
    survives when neither list marker occurs anywhere in it, it does not
    start with a semicolon, and it is not blank once trimmed. *)
Definition survives (line : string) : bool :=
  negb (Py.contains "<list>" line)
  && negb (Py.contains "</list>" line)
  && negb (Py.startswith ";" line)
  && negb (String.eqb (Py.strip line) "").


(** The item passes [if not value['duplicate']] in [clean_data]. *)
Definition exported (item : string * Mix.data) : bool :=
  match Mix.duplicate (snd item) with
  | Some d => negb (Mix.truthy d)
  | None => false
  end.

(** How many times the loop body calls [categories.remove(category)]: once
    for the removal list, once for each pattern that matches. *)
Definition hits (removal : list string) (category : string) : nat :=
  Nat.b2n (Py.mem (Py.strip category) removal)
  + list_sum (map (fun regex => Nat.b2n (Pat.matches regex category))
                  UNNECESSARY_CATEGORIES).

(** * Properties *)

(** ** Runs on sample inputs *)

Example parse_track_plain :
  parse_track "Artist Name - Track Title" = Ok ["Artist Name"; "Track Title"; ""].
Proof. reflexivity. Qed.

Example parse_track_label :
  parse_track "[12:34] Artist - Track [Label Records]"
  = Ok ["Artist"; "Track"; "Label Records"].
Proof. reflexivity. Qed.

Example parse_track_qmarks :
  parse_track "???" = Ok ["unknown"; "unknown"; "unknown"].
Proof. reflexivity. Qed.

Example parse_track_two_brackets :
  parse_track "Artist [Mix] - Track [Label]"
  = Ok ["unknown"; "unknown"; "Mix - Track Label"].
Proof. reflexivity. Qed.

Example parse_track_feat :
  parse_track "#[??:??] 12. ''A Feat. B - T (x) [L]" = Ok ["A"; "T (x)"; "L"].
Proof. reflexivity. Qed.

Example parse_mix_link_plain :
  parse_mix_link
    {| href := "/w/x";
       title := "1993-10-30 - Pete Tong, Sasha @ Cream, Liverpool - Essential Mix" |}
  = Ok (Some ("/w/x", {| date := "1993-10-30";
                         artists := ["Pete Tong"; "Sasha"];
                         venue := "Cream, Liverpool" |})).
Proof. reflexivity. Qed.

Example parse_mix_link_one_segment :
  parse_mix_link {| href := "/w/x"; title := "1993-10-30 - Essential Mix" |}
  = Raise IndexError.
Proof. reflexivity. Qed.

Example clean_categories_typical :
  clean_categories ["Sasha"; "Digweed"] "1999-08-01"
    ["Essential Mix"; "Trance"; " Sasha"; "1999"; "Ibiza 1999"; "House";
     "Essential Mix|1999-08-01"; "Digweed"; "Trance"]
  = Ok ["Trance"; "House"; "Trance"].
Proof. reflexivity. Qed.

(** ** Helper facts on the error monad and the list traversals *)

Lemma filter_r_total (A : Type) (f : A -> result bool) (g : A -> bool) :
  forall xs,
    Forall (fun x => f x = Ok (g x)) xs ->
    filter_r f xs = Ok (filter g xs).
Proof.
  induction xs as [|x r IH]; intros H; simpl.
  - reflexivity.
  - inversion H as [|? ? Hx Hr]; subst.
    rewrite Hx; simpl. rewrite (IH Hr); simpl.
    destruct (g x); reflexivity.
Qed.

Lemma map_r_total (A B : Type) (f : A -> result B) (g : A -> B) :
  forall xs,
    Forall (fun x => f x = Ok (g x)) xs ->
    map_r f xs = Ok (map g xs).
Proof.
  induction xs as [|x r IH]; intros H; simpl.
  - reflexivity.
  - inversion H as [|? ? Hx Hr]; subst.
    rewrite Hx; simpl. rewrite (IH Hr); reflexivity.
Qed.

(** ** Track Normalizer *)

Lemma skip_track_nonempty track :
  track <> "" -> skip_track track = Ok (kept track).
Proof.
  intros H. unfold kept. destruct track as [|c r]; [congruence|].
  reflexivity.
Qed.

Lemma strip_leading_nonempty raw_track :
  raw_track <> "" -> strip_leading raw_track = Ok (cleaned raw_track).
Proof.
  intros H. unfold cleaned. destruct raw_track as [|c r]; [congruence|].
  reflexivity.
Qed.


Lemma parse_track_nonempty raw_track :
  raw_track <> "" ->
  parse_track raw_track = Ok (extract_fields (cleaned raw_track)).
Proof.
  intros H. unfold parse_track.
  rewrite (strip_leading_nonempty _ H). reflexivity.
Qed.

Lemma parse_tracks_nonempty raw :
  Forall (fun l => l <> "") raw ->
  parse_tracks raw
  = Ok (map (fun t => extract_fields (cleaned t)) (filter kept raw), []).
Proof.
  intros H. unfold parse_tracks.
  rewrite (filter_r_total _ skip_track kept).
  2:{ eapply Forall_impl; [|exact H]. intros; now apply skip_track_nonempty. }
  simpl.
  rewrite (map_r_total _ _ parse_track (fun t => extract_fields (cleaned t))).
  2:{ apply Forall_forall. intros t Ht. apply filter_In in Ht as [Ht _].
      rewrite Forall_forall in H. apply parse_track_nonempty. now apply H. }
  simpl. rewrite length_map, Nat.eqb_refl. reflexivity.
Qed.






Example filter_survives_sample :
  filter survives
    ["<list>"; ";Hour 1"; "# A - B [C]"; "  "; "???"; "X - Y </list>"]
  = ["# A - B [C]"; "???"].
Proof. reflexivity. Qed.

(** Even when the counts differ the function only prints: whatever the
    lengths, the parsed tracks are returned. *)
Lemma parse_tracks_returns_parsed raw tracks parsed_tracks :
  filter_r skip_track raw = Ok tracks ->
  map_r parse_track tracks = Ok parsed_tracks ->
  exists log, parse_tracks raw = Ok (parsed_tracks, log).
Proof.
  intros Hf Hm. unfold parse_tracks. rewrite Hf; simpl. rewrite Hm; simpl.
  eexists; reflexivity.
Qed.

(** C8. A line whose cleaned text is empty once every question mark is
    removed and the rest is trimmed yields unknown artist, title and
    label. *)
Theorem parse_track_question_marks raw_track processed_track :
  strip_leading raw_track = Ok processed_track ->
  Py.strip (Re.sub_qmarks processed_track) = "" ->
  parse_track raw_track = Ok ["unknown"; "unknown"; "unknown"].
Proof.
  intros Hl Hq. unfold parse_track. rewrite Hl; simpl.
  unfold extract_fields. rewrite Hq. reflexivity.
Qed.

Lemma parse_track_question_marks_witness :
  parse_track "???" = Ok ["unknown"; "unknown"; "unknown"].
Proof.
  apply (parse_track_question_marks "???" "???"); reflexivity.
Defined.

(** C9. The line "[12:34] Artist - Track [Label Records]" loses its
    timestamp, its trailing bracket becomes the label, and the result is
    artist "Artist", title "Track", label "Label Records". *)
Theorem parse_tracks_timestamp_label :
  strip_leading "[12:34] Artist - Track [Label Records]"
  = Ok "Artist - Track [Label Records]" /\
  extract_label "Artist - Track [Label Records]"
  = ("Artist - Track", "Label Records") /\
  parse_tracks ["[12:34] Artist - Track [Label Records]"]
  = Ok ([["Artist"; "Track"; "Label Records"]], []).
Proof. repeat split. Qed.

(** ** Facts on the string primitives *)

Lemma rstrip_idem s : Py.rstrip (Py.rstrip s) = Py.rstrip s.
Proof.
  induction s as [|c r IH]; simpl; [reflexivity|].
  destruct (Py.rstrip r) as [|c' r'] eqn:E.
  - destruct (Py.is_space c) eqn:Hc; simpl; [reflexivity|].
    rewrite Hc; reflexivity.
  - simpl in IH |- *. rewrite IH. reflexivity.
Qed.

Lemma rstrip_cons c s :
  Py.is_space c = false -> Py.rstrip (String c s) = String c (Py.rstrip s).
Proof.
  intros Hc; simpl. destruct (Py.rstrip s); [rewrite Hc|]; reflexivity.
Qed.

Lemma rstrip_cons_cons a c s :
  Py.is_space c = false ->
  Py.rstrip (String a (String c s)) = String a (String c (Py.rstrip s)).
Proof.
  intros Hc. change (Py.rstrip (String a (String c s)))
    with (match Py.rstrip (String c s) with
          | EmptyString =>
              if Py.is_space a then EmptyString else String a EmptyString
          | r' => String a r'
          end).
  rewrite (rstrip_cons _ _ Hc). reflexivity.
Qed.

Lemma strip_cons c s :
  Py.is_space c = false -> Py.strip (String c s) = String c (Py.rstrip s).
Proof.
  intros Hc. unfold Py.strip. rewrite (rstrip_cons _ _ Hc). simpl.
  rewrite Hc. reflexivity.
Qed.

Lemma occurs_rstrip c s :
  Py.is_space c = false -> occurs c s -> occurs c (Py.rstrip s).
Proof.
  intros Hc. induction s as [|a r IH]; simpl; [tauto|].
  intros [->|H].
  - destruct (Py.rstrip r); [rewrite Hc|]; simpl; auto.
  - specialize (IH H). destruct (Py.rstrip r); simpl in *; [tauto|].
    right. exact IH.
Qed.

Lemma occurs_lstrip c s :
  Py.is_space c = false -> occurs c s -> occurs c (Py.lstrip s).
Proof.
  intros Hc. induction s as [|a r IH]; simpl; [tauto|].
  intros H. destruct (Py.is_space a) eqn:Ha; [|exact H].
  destruct H as [->|H]; [congruence|auto].
Qed.

Lemma occurs_strip c s :
  Py.is_space c = false -> occurs c s -> occurs c (Py.strip s).
Proof.
  intros Hc H. unfold Py.strip.
  apply occurs_lstrip; [assumption|]. now apply occurs_rstrip.
Qed.

Lemma occurs_sub_qmarks c s :
  c <> "?"%char -> occurs c s -> occurs c (Re.sub_qmarks s).
Proof.
  intros Hc. induction s as [|a r IH]; simpl; [tauto|].
  intros [->|H].
  - destruct (Ascii.eqb_spec c "?"); [contradiction|]. simpl; auto.
  - destruct (Ascii.eqb a "?"); simpl; auto.
Qed.

Lemma occurs_app_r c s t : occurs c t -> occurs c (s ++ t).
Proof. induction s; simpl; auto. Qed.

Lemma occurs_nonempty c s : occurs c s -> s <> "".
Proof. destruct s; simpl; [tauto|discriminate]. Qed.

Lemma startswith_refl s : Py.startswith s s = true.
Proof.
  induction s as [|c r IH]; simpl; [reflexivity|].
  rewrite Ascii.eqb_refl. exact IH.
Qed.

Lemma replace_from_skip_all old new s k :
  String.length s <= k -> Py.replace_from old new k s = "".
Proof.
  revert k. induction s as [|c r IH]; intros k Hk; simpl; [reflexivity|].
  destruct k as [|k]; simpl in Hk; [lia|]. apply IH. lia.
Qed.

(** An occurrence that ends the string, when no earlier character can
    start one, is the only one: replacing it leaves what precedes it. *)
Lemma replace_suffix a m pre :
  Py.contains (String a "") pre = false ->
  Py.replace (String a m) "" (pre ++ String a m) = pre.
Proof.
  unfold Py.replace. induction pre as [|c r IH]; intros H.
  - cbn [append]. cbn [Py.replace_from].
    rewrite startswith_refl. cbn [append].
    apply replace_from_skip_all. simpl. lia.
  - simpl in H. apply orb_false_iff in H as [Hc Hr].
    rewrite andb_true_r in Hc.
    cbn [append Py.replace_from Py.startswith]. rewrite Hc. cbn [andb].
    f_equal. exact (IH Hr).
Qed.

Lemma replace_char a s : Py.replace (String a "") "" s = delete_char a s.
Proof.
  unfold Py.replace. induction s as [|c r IH]; simpl; [reflexivity|].
  rewrite andb_true_r, (Ascii.eqb_sym a c).
  destruct (Ascii.eqb c a); [exact IH | now rewrite IH].
Qed.

Lemma delete_char_app a s t :
  delete_char a (s ++ t) = delete_char a s ++ delete_char a t.
Proof.
  induction s as [|c r IH]; simpl; [reflexivity|].
  destruct (Ascii.eqb c a); simpl; now rewrite IH.
Qed.

Lemma split_no_separator sep s :
  Py.contains sep s = false -> Py.split sep s = [s].
Proof.
  unfold Py.split. induction s as [|c r IH]; intros H.
  - reflexivity.
  - cbn [Py.contains] in H. apply orb_false_iff in H as [Hs Hr].
    cbn [Py.split_from]. rewrite Hs, (IH Hr). reflexivity.
Qed.

Lemma split_from_nonempty sep k s : Py.split_from sep k s <> [].
Proof.
  revert k. induction s as [|c r IH]; intros k; simpl; [discriminate|].
  destruct k; [|apply IH].
  destruct (Py.startswith sep (String c r)); [discriminate|].
  destruct (Py.split_from sep 0 r); discriminate.
Qed.

(** ** The label search *)

Lemma at_end_closing s : Re.at_end (s ++ "]") = false.
Proof.
  destruct s as [|c [|c' r]]; simpl; try reflexivity.
Qed.

Lemma dots_close_to_end u :
  u <> "" -> Py.contains nl u = false ->
  Re.dots_close (u ++ "]") = Some (u ++ "]").
Proof.
  induction u as [|c r IH]; intros Hne Hnl; [congruence|].
  cbn [Py.contains] in Hnl. apply orb_false_iff in Hnl as [Hc Hr].
  unfold nl in Hc. cbn [Py.startswith] in Hc. rewrite andb_true_r in Hc.
  cbn [append Re.dots_close]. rewrite (Ascii.eqb_sym c Py.newline), Hc.
  destruct r as [|c' r'].
  - reflexivity.
  - cbn [append Py.startswith Py.drop].
    rewrite andb_true_r, at_end_closing, andb_false_r.
    change (String c' (r' ++ "]")) with (String c' r' ++ "]").
    rewrite IH; [reflexivity | discriminate | exact Hr].
Qed.

Lemma label_search_first_bracket pre u :
  Py.contains "[" pre = false -> u <> "" -> Py.contains nl u = false ->
  Re.label_search (pre ++ "[" ++ u ++ "]") = Some ("[" ++ u ++ "]").
Proof.
  intros Hpre Hne Hnl. induction pre as [|c r IH].
  - cbn [append Re.label_search]. rewrite Ascii.eqb_refl.
    rewrite (dots_close_to_end _ Hne Hnl). reflexivity.
  - cbn [Py.contains] in Hpre. apply orb_false_iff in Hpre as [Hc Hr].
    cbn [Py.startswith] in Hc. rewrite andb_true_r in Hc.
    cbn [append Re.label_search]. rewrite (Ascii.eqb_sym c "["), Hc.
    exact (IH Hr).
Qed.

Lemma append_empty_r (s : string) : s ++ "" = s.
Proof. induction s; simpl; congruence. Qed.

Lemma delete_brackets_wrapped u :
  delete_brackets ("[" ++ u ++ "]") = delete_brackets u.
Proof.
  unfold delete_brackets. cbn [append].
  change (delete_char "[" (String "[" (u ++ "]")))
    with (delete_char "[" (u ++ "]")).
  rewrite !delete_char_app.
  change (delete_char "[" "]") with "]".
  change (delete_char "]" "]") with "".
  apply append_empty_r.
Qed.

Lemma extract_label_first_bracket pre u :
  Py.contains "[" pre = false -> u <> "" -> Py.contains nl u = false ->
  extract_label (pre ++ "[" ++ u ++ "]")
  = (Py.strip pre, Py.strip (delete_brackets u)).
Proof.
  intros Hpre Hne Hnl. unfold extract_label.
  rewrite (label_search_first_bracket _ _ Hpre Hne Hnl).
  cbn [append String.eqb negb].
  rewrite (replace_suffix "[" (u ++ "]") pre Hpre).
  rewrite !replace_char.
  change (delete_char "]" (delete_char "[" (String "[" (u ++ "]"))))
    with (delete_brackets ("[" ++ u ++ "]")).
  rewrite delete_brackets_wrapped. reflexivity.
Qed.

Lemma not_only_question_marks c s :
  Py.is_space c = false -> c <> "?"%char -> occurs c s ->
  String.eqb (Py.strip (Re.sub_qmarks s)) "" = false.
Proof.
  intros Hs Hq H. apply String.eqb_neq.
  apply (occurs_nonempty c). apply occurs_strip; [assumption|].
  now apply occurs_sub_qmarks.
Qed.

(** C10 as stated fails in its last part: a line with an earlier bracketed
    segment and a trailing one need not fail the split.  In
    "Artist - Track [Remix] [Label]" the label runs from the first bracket to
    the end, and the text before it still splits into artist and title. *)
Lemma split_after_label_counterexample :
  strip_leading "Artist - Track [Remix] [Label]"
  = Ok "Artist - Track [Remix] [Label]" /\
  Re.label_search "Artist - Track [Remix] [Label]" = Some "[Remix] [Label]" /\
  parse_track "Artist - Track [Remix] [Label]"
  = Ok ["Artist"; "Track"; "Remix Label"] /\
  parse_track "Artist - Track [Remix] [Label]"
  <> Ok ["unknown"; "unknown"; "Remix Label"].
Proof. repeat split; discriminate. Qed.

(** C10, amended. On a cleaned line [pre ++ "[" ++ u ++ "]"] whose first
    opening bracket is followed by a non-empty text [u] (no newline in it)
    and the closing bracket that ends the line, the label match starts at
    that first bracket and runs to the end: the label is [u] with every
    square bracket deleted, trimmed, and the line is cut back to [pre],
    trimmed.  Artist and title are then read from [pre] alone: both are
    "unknown" when [pre] holds no " - " (as in
    "Artist [Mix] - Track [Label]"), and they are its first two segments
    otherwise. *)
Theorem label_from_first_bracket pre u :
  Py.contains "[" pre = false -> u <> "" -> Py.contains nl u = false ->
  Re.label_search (pre ++ "[" ++ u ++ "]") = Some ("[" ++ u ++ "]") /\
  extract_label (pre ++ "[" ++ u ++ "]")
  = (Py.strip pre, Py.strip (delete_brackets u)) /\
  extract_fields (pre ++ "[" ++ u ++ "]")
  = match Py.split " - " (Py.strip pre) with
    | s0 :: s1 :: _ =>
        [fold_left cut_feat [" Feat."; " Featuring"] (Py.strip s0);
         Py.strip s1; Py.strip (delete_brackets u)]
    | _ => ["unknown"; "unknown"; Py.strip (delete_brackets u)]
    end /\
  (Py.contains " - " (Py.strip pre) = false ->
   extract_fields (pre ++ "[" ++ u ++ "]")
   = ["unknown"; "unknown"; Py.strip (delete_brackets u)]).
Proof.
  intros Hpre Hne Hnl.
  assert (Hf : extract_fields (pre ++ "[" ++ u ++ "]")
               = match Py.split " - " (Py.strip pre) with
                 | s0 :: s1 :: _ =>
                     [fold_left cut_feat [" Feat."; " Featuring"] (Py.strip s0);
                      Py.strip s1; Py.strip (delete_brackets u)]
                 | _ => ["unknown"; "unknown"; Py.strip (delete_brackets u)]
                 end).
  { unfold extract_fields. rewrite (not_only_question_marks "[").
    - cbn [negb]. rewrite (extract_label_first_bracket _ _ Hpre Hne Hnl).
      reflexivity.
    - reflexivity.
    - discriminate.
    - apply occurs_app_r. simpl. auto. }
  split; [|split; [|split]].
  - now apply label_search_first_bracket.
  - now apply extract_label_first_bracket.
  - exact Hf.
  - intros Hsep. rewrite Hf, (split_no_separator _ _ Hsep). reflexivity.
Qed.

Lemma label_from_first_bracket_witness :
  strip_leading "Artist [Mix] - Track [Label]"
  = Ok "Artist [Mix] - Track [Label]" /\
  Re.label_search "Artist [Mix] - Track [Label]"
  = Some "[Mix] - Track [Label]" /\
  extract_label "Artist [Mix] - Track [Label]"
  = ("Artist", "Mix - Track Label") /\
  extract_fields "Artist [Mix] - Track [Label]"
  = ["unknown"; "unknown"; "Mix - Track Label"] /\
  parse_tracks ["Artist [Mix] - Track [Label]"]
  = Ok ([["unknown"; "unknown"; "Mix - Track Label"]], []).
Proof.
  destruct (label_from_first_bracket "Artist " "Mix] - Track [Label")
    as (Hs & He & _ & Hf); [reflexivity | discriminate | reflexivity |].
  split; [reflexivity|]. split; [exact Hs|]. split; [exact He|].
  split; [exact (Hf eq_refl) | reflexivity].
Defined.

(** ** The label when the split fails *)

(** C1 as stated fails: the line "Artist" is not made of question marks,
    has no bracketed label and does not split, and its label is the empty
    string, not "unknown". *)
Lemma label_unknown_counterexample :
  strip_leading "Artist" = Ok "Artist" /\
  Py.strip (Re.sub_qmarks "Artist") <> "" /\
  length (Py.split " - " (fst (extract_label "Artist"))) < 2 /\
  parse_track "Artist" = Ok ["unknown"; "unknown"; ""] /\
  parse_track "Artist" <> Ok ["unknown"; "unknown"; "unknown"].
Proof.
  repeat split; try reflexivity; try discriminate. simpl; lia.
Qed.

(** C1, amended. For a line that is not made of question marks and whose
    text left by the label search splits on " - " into fewer than two
    segments, artist and title are "unknown" and the label is the one the
    label search resolved: the empty string when no trailing bracketed
    label was found, the extracted label otherwise.  The failed split does
    not overwrite it. *)
Theorem label_kept_when_split_fails raw_track processed_track :
  strip_leading raw_track = Ok processed_track ->
  Py.strip (Re.sub_qmarks processed_track) <> "" ->
  length (Py.split " - " (fst (extract_label processed_track))) < 2 ->
  parse_track raw_track
  = Ok ["unknown"; "unknown"; snd (extract_label processed_track)] /\
  (Re.label_search processed_track = None ->
   snd (extract_label processed_track) = "").
Proof.
  intros Hl Hq Hlen. split.
  - unfold parse_track. rewrite Hl. cbn [bind]. unfold extract_fields.
    apply String.eqb_neq in Hq. rewrite Hq. cbn [negb].
    destruct (extract_label processed_track) as [rest label].
    cbn [fst snd] in *.
    destruct (Py.split " - " rest) as [|s0 [|s1 r]]; try reflexivity.
    simpl in Hlen. lia.
  - intros Hnone. unfold extract_label. rewrite Hnone. reflexivity.
Qed.

Lemma label_kept_when_split_fails_witness :
  parse_track "Some Jingle [Radio 1]" = Ok ["unknown"; "unknown"; "Radio 1"] /\
  parse_track "Artist" = Ok ["unknown"; "unknown"; ""].
Proof.
  split.
  - apply (label_kept_when_split_fails "Some Jingle [Radio 1]"
             "Some Jingle [Radio 1]");
      [reflexivity | discriminate | simpl; lia].
  - apply (label_kept_when_split_fails "Artist" "Artist");
      [reflexivity | discriminate | simpl; lia].
Defined.

(** ** The noise tokens *)

Lemma strip_noise_unfold s :
  strip_noise s = strip_token (strip_token (strip_token s "''") "* ") "+ ".
Proof. reflexivity. Qed.

(** C5 as stated fails: from "''* Artist - Track" the first turn of the loop
    takes the quotes, and the next turn takes the star as well. *)
Lemma strip_noise_counterexample :
  strip_token "''* Artist - Track" "''" = "* Artist - Track" /\
  strip_noise "''* Artist - Track" = "Artist - Track" /\
  strip_noise "''* Artist - Track" <> "* Artist - Track" /\
  parse_track "''* Artist - Track" = Ok ["Artist"; "Track"; ""].
Proof. repeat split; discriminate. Qed.

(** C5, amended. The loop tries the three tokens "''", "* " and "+ " once
    each, in that order, on what the previous turn left, and strips each one
    found: up to three tokens go.  A line starting "''* " and going on with
    a non-blank character loses both the quotes and the star, and one
    starting "''* + " loses all three. *)
Theorem strip_noise_each_token_in_turn s c w :
  Py.is_space c = false ->
  strip_noise s = strip_token (strip_token (strip_token s "''") "* ") "+ " /\
  strip_noise ("''* " ++ String c w) = strip_token (Py.strip (String c w)) "+ " /\
  strip_noise ("''* + " ++ String c w) = Py.strip (String c w).
Proof.
  intros Hc. split; [reflexivity|].
  assert (Hstar : forall t, strip_token (Py.strip ("* " ++ String c t)) "* "
                            = Py.strip (String c t)).
  { intros t. unfold Py.strip at 1. cbn [append].
    rewrite (rstrip_cons "*"), (rstrip_cons_cons " " c) by (reflexivity || exact Hc).
    cbn [Py.lstrip]. replace (Py.is_space "*") with false by reflexivity.
    unfold strip_token. cbn [Py.take Py.drop String.eqb].
    replace (String.eqb "* " "* ") with true by reflexivity.
    rewrite !(strip_cons _ _ Hc), rstrip_idem. reflexivity. }
  assert (Hplus : forall t, strip_token (Py.strip ("+ " ++ String c t)) "+ "
                            = Py.strip (String c t)).
  { intros t. unfold Py.strip at 1. cbn [append].
    rewrite (rstrip_cons "+"), (rstrip_cons_cons " " c) by (reflexivity || exact Hc).
    cbn [Py.lstrip]. replace (Py.is_space "+") with false by reflexivity.
    unfold strip_token. cbn [Py.take Py.drop String.eqb].
    replace (String.eqb "+ " "+ ") with true by reflexivity.
    rewrite !(strip_cons _ _ Hc), rstrip_idem. reflexivity. }
  split.
  - rewrite strip_noise_unfold. unfold strip_token at 3.
    cbn [append Py.take Py.drop].
    replace (String.eqb "''" "''") with true by reflexivity.
    change (String "*" (String " " (String c w))) with ("* " ++ String c w).
    rewrite Hstar. reflexivity.
  - rewrite strip_noise_unfold. unfold strip_token at 3.
    cbn [append Py.take Py.drop].
    replace (String.eqb "''" "''") with true by reflexivity.
    change (String "*" (String " " (String "+" (String " " (String c w)))))
      with ("* " ++ String "+" (" " ++ String c w)).
    assert (Hs : Py.strip ("* " ++ String "+" (" " ++ String c w))
                 = "* " ++ Py.strip ("+ " ++ String c w)).
    { unfold Py.strip. cbn [append].
      rewrite (rstrip_cons "*"), (rstrip_cons_cons " " "+") by reflexivity.
      rewrite (rstrip_cons_cons " " c) by exact Hc.
      rewrite (rstrip_cons "+") by reflexivity.
      rewrite (rstrip_cons_cons " " c) by exact Hc.
      reflexivity. }
    rewrite Hs. unfold strip_token at 2. cbn [append Py.take Py.drop].
    replace (String.eqb "* " "* ") with true by reflexivity.
    assert (Hi : Py.strip (Py.strip ("+ " ++ String c w))
                 = Py.strip ("+ " ++ String c w)).
    { unfold Py.strip at 2 3. cbn [append].
      rewrite (rstrip_cons "+"), (rstrip_cons_cons " " c) by (reflexivity || exact Hc).
      cbn [Py.lstrip]. replace (Py.is_space "+") with false by reflexivity.
      unfold Py.strip. rewrite (rstrip_cons "+"), (rstrip_cons_cons " " c)
        by (reflexivity || exact Hc).
      rewrite rstrip_idem. reflexivity. }
    cbn [append] in Hi. rewrite Hi. exact (Hplus w).
Qed.

Lemma strip_noise_each_token_in_turn_witness :
  strip_noise "+ Artist" = "Artist" /\
  strip_noise "''* Artist" = "Artist" /\
  strip_noise "''* + Artist" = "Artist".
Proof.
  destruct (strip_noise_each_token_in_turn "+ Artist" "A" "rtist" eq_refl)
    as (H1 & H2 & H3).
  split; [rewrite H1; reflexivity|]. split; [exact H2 | exact H3].
Defined.

(** ** Tracklist Splitter *)

Lemma item_split_0 sep s : item (Py.split sep s) 0 = Ok (hd "" (Py.split sep s)).
Proof.
  unfold Py.split. pose proof (split_from_nonempty sep 0 s) as H.
  destruct (Py.split_from sep 0 s); [congruence|reflexivity].
Qed.

(** Without the header (and without a duplicate pointer on the first line)
    [categories] is still [None] when the loop over it starts. *)
Lemma parse_tracklist_no_header text :
  existsb (fun message => Py.contains message (hd "" (Py.split nl text)))
          ["Fake"; "Repeat"] = false ->
  Py.mem "== Tracklist ==" (Py.split nl text) = false ->
  parse_tracklist text = Raise TypeError.
Proof.
  intros Hdup Hhdr. unfold parse_tracklist.
  rewrite item_split_0. cbn [bind]. rewrite Hdup, Hhdr. reflexivity.
Qed.

(** C3. The claim asks for (no tracklist, no categories, not a duplicate)
    and no error; on a document of two lines with neither a duplicate
    pointer nor the header the function raises [TypeError] instead. *)
Theorem parse_tracklist_header_absent_raises :
  existsb (fun message =>
             Py.contains message
               (hd "" (Py.split nl ("{{Mixinfo}}" ++ nl ++ "Some notes"))))
          ["Fake"; "Repeat"] = false /\
  Py.mem "== Tracklist ==" (Py.split nl ("{{Mixinfo}}" ++ nl ++ "Some notes"))
  = false /\
  parse_tracklist ("{{Mixinfo}}" ++ nl ++ "Some notes") = Raise TypeError /\
  parse_tracklist ("{{Mixinfo}}" ++ nl ++ "Some notes")
  <> Ok (None, None, DupBool false).
Proof. repeat split; discriminate. Qed.

(** C4 as stated fails: removing " |Original  =" from the second line leaves
    the blank that follows the equals sign. *)
Lemma duplicate_marker_counterexample :
  Py.contains "Fake" "{{Fake}}" = true /\
  Py.split nl ("{{Fake}}" ++ nl ++ " |Original  = /w/SomeOtherMix")
  = ["{{Fake}}"; " |Original  = /w/SomeOtherMix"] /\
  parse_tracklist ("{{Fake}}" ++ nl ++ " |Original  = /w/SomeOtherMix")
  = Ok (None, None, DupText " /w/SomeOtherMix") /\
  parse_tracklist ("{{Fake}}" ++ nl ++ " |Original  = /w/SomeOtherMix")
  <> Ok (None, None, DupText "/w/SomeOtherMix").
Proof. repeat split; discriminate. Qed.

(** C4, amended. For every document whose first line contains "Fake" and
    whose second line is " |Original  = /w/SomeOtherMix", the splitter
    returns no tracklist, no categories and the duplicate marker
    " /w/SomeOtherMix": the second line without " |Original  =", the blank
    before the path included. *)
Theorem duplicate_marker_keeps_blank text line0 :
  item (Py.split nl text) 0 = Ok line0 ->
  Py.contains "Fake" line0 = true ->
  item (Py.split nl text) 1 = Ok " |Original  = /w/SomeOtherMix" ->
  parse_tracklist text = Ok (None, None, DupText " /w/SomeOtherMix").
Proof.
  intros H0 Hfake H1. unfold parse_tracklist.
  rewrite H0. cbn [bind existsb]. rewrite Hfake. cbn [orb].
  rewrite H1. reflexivity.
Qed.

Lemma duplicate_marker_keeps_blank_witness :
  parse_tracklist
    ("{{Fake Essential Mix" ++ nl ++ " |Original  = /w/SomeOtherMix" ++ nl ++ "}}")
  = Ok (None, None, DupText " /w/SomeOtherMix").
Proof.
  apply (duplicate_marker_keeps_blank _ "{{Fake Essential Mix"); reflexivity.
Defined.

(** The track lines the splitter hands over are never empty, so
    [skip_track] does not raise on them. *)
Lemma parse_tracklist_lines_nonempty text tracks categories duplicate :
  parse_tracklist text = Ok (Some tracks, categories, duplicate) ->
  Forall (fun l => l <> "") tracks.
Proof.
  unfold parse_tracklist. rewrite item_split_0. cbn [bind].
  destruct (existsb _ _).
  - destruct (item (Py.split nl text) 1); discriminate.
  - destruct (Py.mem "== Tracklist ==" (Py.split nl text)); [|discriminate].
    intros H. injection H as <- _ _.
    apply Forall_forall. intros l Hl.
    unfold Py.filter_truthy in Hl. apply filter_In in Hl as [_ Hl].
    apply negb_true_iff in Hl. now apply String.eqb_neq.
Qed.

Lemma parse_tracks_after_split text tracks categories duplicate :
  parse_tracklist text = Ok (Some tracks, categories, duplicate) ->
  exists parsed_tracks,
    parse_tracks tracks = Ok (parsed_tracks, []) /\
    length parsed_tracks = length (filter kept tracks).
Proof.
  intros H. apply parse_tracklist_lines_nonempty in H.
  eexists. split; [now apply parse_tracks_nonempty | apply length_map].
Qed.

(** ** Link Parser *)

(** C7. For a tag that is not on the ignore list and whose title, without
    the boilerplate, splits on " - " into at least two segments the first of
    which is 10 characters long, [parse_mix_link] returns and the date is
    that first segment, unchanged. *)
Theorem parse_mix_link_leading_date tag segment0 segment1 rest :
  Py.mem (href tag) MIXES_TO_IGNORE = false ->
  Py.split " - " (bare_title tag) = segment0 :: segment1 :: rest ->
  String.length segment0 = 10 ->
  exists artists venue,
    parse_mix_link tag
    = Ok (Some (href tag,
                {| date := segment0; artists := artists; venue := venue |})).
Proof.
  intros Hign Hseg Hlen. unfold parse_mix_link.
  rewrite Hign. fold (bare_title tag). rewrite Hseg.
  cbn [item nth_error bind]. rewrite Hlen.
  cbn [Nat.eqb bind item nth_error].
  pose proof (split_from_nonempty " @ " 0 segment1) as Hne.
  fold (Py.split " @ " segment1) in Hne.
  destruct (Py.split " @ " segment1) as [|a [|v r]]; [congruence| |];
    cbn [item nth_error length Nat.ltb Nat.leb bind];
    eexists; eexists; reflexivity.
Qed.

Lemma parse_mix_link_leading_date_witness :
  exists artists venue,
    parse_mix_link
      {| href := "/w/1993-10-30_-_Paul_Oakenfold_-_Essential_Mix";
         title := "1993-10-30 - Paul Oakenfold @ Cream - Essential Mix" |}
    = Ok (Some ("/w/1993-10-30_-_Paul_Oakenfold_-_Essential_Mix",
                {| date := "1993-10-30"; artists := artists; venue := venue |})).
Proof.
  apply (parse_mix_link_leading_date
           {| href := "/w/1993-10-30_-_Paul_Oakenfold_-_Essential_Mix";
              title := "1993-10-30 - Paul Oakenfold @ Cream - Essential Mix" |}
           "1993-10-30" "Paul Oakenfold @ Cream" []); reflexivity.
Defined.

(** ** Category Cleaner *)

Lemma list_remove_first x pre post :
  Forall (fun y => y <> x) pre ->
  list_remove x (pre ++ x :: post)%list = Ok (pre ++ post)%list.
Proof.
  induction pre as [|y r IH]; intros H; cbn [app list_remove].
  - rewrite String.eqb_refl. reflexivity.
  - inversion H as [|? ? Hy Hr]; subst.
    apply String.eqb_neq in Hy. rewrite Hy, (IH Hr). reflexivity.
Qed.

(** The two patterns start with different letters: no category matches
    both. *)
Lemma patterns_exclusive category :
  Pat.matches (nth 0 UNNECESSARY_CATEGORIES []) category = true ->
  Pat.matches (nth 1 UNNECESSARY_CATEGORIES []) category = false.
Proof.
  destruct category as [|c r]; [discriminate|].
  cbn [nth UNNECESSARY_CATEGORIES Pat.lits app Pat.matches].
  unfold Pat.lit at 1. intros H. apply andb_true_iff in H as [H _].
  apply Ascii.eqb_eq in H. subst c. reflexivity.
Qed.

(** One turn of the loop, for a category that is not both in the removal
    list and matched by a pattern: the category goes once if it is to be
    removed, and stays otherwise. *)
Lemma clean_step_once removal cs category :
  Py.mem (Py.strip category) removal && unnecessary category = false ->
  clean_step removal (Ok cs) category
  = if removed removal category then list_remove category cs else Ok cs.
Proof.
  intros H. unfold clean_step, removed, unnecessary in *.
  cbn [bind]. cbn [existsb UNNECESSARY_CATEGORIES fold_left] in *.
  pose proof (patterns_exclusive category) as Hex.
  cbn [nth UNNECESSARY_CATEGORIES] in Hex.
  destruct (Py.mem (Py.strip category) removal).
  - cbn [andb orb] in H |- *. rewrite orb_false_r in H.
    apply orb_false_iff in H as [H1 H2].
    destruct (list_remove category cs); cbn [bind]; [|reflexivity].
    rewrite H1. cbn [bind]. rewrite H2. reflexivity.
  - cbn [andb orb bind] in H |- *. rewrite orb_false_r.
    destruct (Pat.matches _ category) eqn:E1 at 1.
    + rewrite E1 in Hex. rewrite E1. cbn [orb].
      destruct (list_remove category cs); cbn [bind]; [|reflexivity].
      rewrite (Hex eq_refl). reflexivity.
    + rewrite E1. cbn [orb bind].
      destruct (Pat.matches _ category); reflexivity.
Qed.

Lemma clean_fold removal todo :
  Forall (fun c => Py.mem (Py.strip c) removal && unnecessary c = false) todo ->
  forall done,
    Forall (fun c => removed removal c = false) done ->
    fold_left (clean_step removal) todo (Ok (done ++ todo)%list)
    = Ok (done ++ filter (fun c => negb (removed removal c)) todo)%list.
Proof.
  induction todo as [|c r IH]; intros H done Hdone; [reflexivity|].
  inversion H as [|? ? Hc Hr]; subst.
  cbn [fold_left filter]. rewrite (clean_step_once _ _ _ Hc).
  destruct (removed removal c) eqn:E; cbn [negb].
  - rewrite list_remove_first.
    + exact (IH Hr done Hdone).
    + eapply Forall_impl; [|exact Hdone]. cbn beta. intros y Hy ->. congruence.
  - replace (done ++ c :: r)%list with ((done ++ [c]) ++ r)%list
      by (rewrite <- app_assoc; reflexivity).
    rewrite (IH Hr (done ++ [c])%list).
    + rewrite <- app_assoc. reflexivity.
    + apply Forall_app. split; [exact Hdone|]. constructor; [exact E|constructor].
Qed.

(** Away from the double hit the cleaner is the filter the specification
    describes: every category to be removed goes, the others stay in their
    order. *)
Lemma clean_categories_filter artists date value_categories :
  Forall (fun c => Py.mem (Py.strip c) (remove_categories artists date)
                   && unnecessary c = false) value_categories ->
  clean_categories artists date value_categories
  = Ok (filter (fun c => negb (removed (remove_categories artists date) c))
               value_categories).
Proof.
  intros H. unfold clean_categories.
  exact (clean_fold _ _ H [] (Forall_nil _)).
Qed.

(** C6. The claim asks that every category equal to an artist name or
    matching a pattern be removed and the rest kept in order; for a mix whose
    artist list holds "Ibiza 2000" and which carries that category, the
    category is removed once for the name and the second removal, for the
    pattern, raises [ValueError]: no cleaned list comes back. *)
Theorem clean_categories_double_hit_raises :
  parse_mix_link {| href := "/w/2000-08-06_-_Ibiza_2000_-_Essential_Mix";
                    title := "2000-08-06 - Ibiza 2000 - Essential Mix" |}
  = Ok (Some ("/w/2000-08-06_-_Ibiza_2000_-_Essential_Mix",
              {| date := "2000-08-06"; artists := ["Ibiza 2000"];
                 venue := "" |})) /\
  Py.mem "Ibiza 2000" (remove_categories ["Ibiza 2000"] "2000-08-06") = true /\
  unnecessary "Ibiza 2000" = true /\
  clean_categories ["Ibiza 2000"] "2000-08-06"
    ["Essential Mix"; "Ibiza 2000"; "House"]
  = Raise ValueError.
Proof. repeat split. Qed.

(** * Further properties of the code *)

(** ** Track Normalizer: errors, shape and composition *)

Lemma parse_tracks_after_split_witness :
  exists parsed_tracks,
    parse_tracks ["<list>"; "# A - B [C]"; ";Hour 2"; "???"]
    = Ok (parsed_tracks, []) /\
    length parsed_tracks
    = length (filter kept ["<list>"; "# A - B [C]"; ";Hour 2"; "???"]).
Proof.
  apply (parse_tracks_after_split
           ("intro" ++ nl ++ "== Tracklist ==" ++ nl ++ "<list>" ++ nl
            ++ "# A - B [C]" ++ nl ++ nl ++ ";Hour 2" ++ nl ++ "???" ++ nl
            ++ "[[Category:House]]")
           ["<list>"; "# A - B [C]"; ";Hour 2"; "???"]
           (Some ["House"]) (DupBool false)).
  reflexivity.
Defined.

Lemma filter_r_empty_line raw :
  In "" raw -> filter_r skip_track raw = Raise IndexError.
Proof.
  induction raw as [|x r IH]; intros H; [destruct H|].
  cbn [filter_r]. destruct x as [|c x'].
  - reflexivity.
  - destruct H as [H|H]; [discriminate|].
    rewrite (skip_track_nonempty (String c x')) by discriminate.
    cbn [bind]. rewrite (IH H). reflexivity.
Qed.

Lemma empty_line_or_none (raw : list string) :
  In "" raw \/ Forall (fun l => l <> "") raw.
Proof.
  induction raw as [|x r [IH|IH]].
  - right; constructor.
  - left; right; exact IH.
  - destruct x as [|c x']; [left; left; reflexivity|].
    right; constructor; [discriminate|exact IH].
Qed.

(** The blank test of [skip_track] comes after [track[0]]: an empty string
    among the track lines makes [parse_tracks] raise [IndexError], wherever
    it stands. *)
Theorem parse_tracks_empty_line_raises raw :
  In "" raw -> parse_tracks raw = Raise IndexError.
Proof.
  intros H. unfold parse_tracks. rewrite (filter_r_empty_line _ H).
  reflexivity.
Qed.

Lemma parse_tracks_empty_line_raises_witness :
  parse_tracks ["A - B"; ""; "C - D"] = Raise IndexError.
Proof.
  apply parse_tracks_empty_line_raises. simpl. auto.
Defined.

Lemma extract_fields_length p : length (extract_fields p) = 3.
Proof.
  unfold extract_fields.
  destruct (negb _); [|reflexivity].
  destruct (extract_label p) as [rest label].
  destruct (Py.split " - " rest) as [|s0 [|s1 r]]; reflexivity.
Qed.

(** Whenever [parse_tracks] returns, every entry has exactly three fields,
    there is one entry per line that [skip_track] keeps, and the mismatch
    report was not printed: the branch that prints it is never taken. *)
Theorem parse_tracks_result_shape raw parsed_tracks log :
  parse_tracks raw = Ok (parsed_tracks, log) ->
  Forall (fun t => length t = 3) parsed_tracks /\
  length parsed_tracks = length (filter kept raw) /\
  log = [].
Proof.
  intros H. destruct (empty_line_or_none raw) as [He|Hne].
  - unfold parse_tracks in H. rewrite (filter_r_empty_line _ He) in H.
    discriminate.
  - rewrite (parse_tracks_nonempty _ Hne) in H. injection H as <- <-.
    repeat split.
    + apply Forall_forall. intros t Ht. apply in_map_iff in Ht as (x & <- & _).
      apply extract_fields_length.
    + apply length_map.
Qed.

Lemma parse_tracks_result_shape_witness :
  Forall (fun t => length t = 3)
         [["A"; "B"; "C"]; ["unknown"; "unknown"; "unknown"]] /\
  length [["A"; "B"; "C"]; ["unknown"; "unknown"; "unknown"]]
  = length (filter kept ["<list>"; "# A - B [C]"; "???"]) /\
  (@nil log_line) = [].
Proof.
  apply (parse_tracks_result_shape ["<list>"; "# A - B [C]"; "???"]).
  reflexivity.
Defined.

Lemma parse_tracks_ok_nonempty raw r :
  parse_tracks raw = Ok r -> Forall (fun l => l <> "") raw.
Proof.
  intros H. destruct (empty_line_or_none raw) as [He|Hne]; [|exact Hne].
  unfold parse_tracks in H. rewrite (filter_r_empty_line _ He) in H.
  discriminate.
Qed.

(** Lines are parsed one by one and in order: the entries of a list of
    lines are the entries of its first part followed by those of the
    rest. *)
Theorem parse_tracks_app raw1 raw2 parsed1 log1 parsed2 log2 :
  parse_tracks raw1 = Ok (parsed1, log1) ->
  parse_tracks raw2 = Ok (parsed2, log2) ->
  parse_tracks (raw1 ++ raw2)%list = Ok ((parsed1 ++ parsed2)%list, []).
Proof.
  intros H1 H2.
  pose proof (parse_tracks_ok_nonempty _ _ H1) as N1.
  pose proof (parse_tracks_ok_nonempty _ _ H2) as N2.
  rewrite (parse_tracks_nonempty _ N1) in H1.
  rewrite (parse_tracks_nonempty _ N2) in H2.
  injection H1 as <- _. injection H2 as <- _.
  rewrite parse_tracks_nonempty by (apply Forall_app; split; assumption).
  rewrite filter_app, map_app. reflexivity.
Qed.

Lemma parse_tracks_app_witness :
  parse_tracks (["<list>"; "A - B"] ++ ["???"; "C - D [E]"])%list
  = Ok (([["A"; "B"; ""]]
         ++ [["unknown"; "unknown"; "unknown"]; ["C"; "D"; "E"]])%list, []).
Proof.
  apply (parse_tracks_app ["<list>"; "A - B"] ["???"; "C - D [E]"]
           [["A"; "B"; ""]] []
           [["unknown"; "unknown"; "unknown"]; ["C"; "D"; "E"]] []);
    reflexivity.
Defined.

(** ** Track Normalizer: the fields *)

Lemma contains_char a s :
  Py.contains (String a "") s = true <-> occurs a s.
Proof.
  induction s as [|c r IH]; cbn [Py.contains Py.startswith occurs].
  - split; [discriminate|tauto].
  - rewrite andb_true_r, orb_true_iff, IH, Ascii.eqb_eq.
    split; intros [H|H]; auto.
Qed.

Lemma contains_char_false a s :
  Py.contains (String a "") s = false <-> ~ occurs a s.
Proof.
  rewrite <- contains_char. destruct (Py.contains (String a "") s);
    split; intros H; congruence || (exfalso; apply H; reflexivity) || discriminate.
Qed.

Lemma occurs_delete_char c a s :
  occurs c (delete_char a s) -> occurs c s /\ c <> a.
Proof.
  induction s as [|x r IH]; cbn [delete_char occurs]; [tauto|].
  destruct (Ascii.eqb_spec x a) as [->|Hx].
  - intros H. destruct (IH H). auto.
  - cbn [occurs]. intros [->|H]; [auto|]. destruct (IH H). auto.
Qed.

Lemma occurs_of_lstrip c s : occurs c (Py.lstrip s) -> occurs c s.
Proof.
  induction s as [|x r IH]; cbn [Py.lstrip occurs]; [tauto|].
  destruct (Py.is_space x); [auto|]. cbn [occurs]. tauto.
Qed.

Lemma occurs_of_rstrip c s : occurs c (Py.rstrip s) -> occurs c s.
Proof.
  induction s as [|x r IH]; cbn [Py.rstrip occurs]; [tauto|].
  destruct (Py.rstrip r) as [|y r'].
  - destruct (Py.is_space x); cbn [occurs]; tauto.
  - cbn [occurs] in *. tauto.
Qed.

Lemma occurs_of_strip c s : occurs c (Py.strip s) -> occurs c s.
Proof.
  intros H. apply occurs_of_rstrip, occurs_of_lstrip. exact H.
Qed.

Lemma extract_label_no_bracket p c :
  c = "["%char \/ c = "]"%char -> ~ occurs c (snd (extract_label p)).
Proof.
  intros Hc. unfold extract_label.
  destruct (Re.label_search p) as [m|]; [|cbn; tauto].
  destruct (negb (String.eqb m "")) eqn:E; cbn [snd].
  - rewrite !replace_char. intros H. apply occurs_of_strip in H.
    apply occurs_delete_char in H as [H H1].
    apply occurs_delete_char in H as [_ H2].
    destruct Hc; congruence.
  - apply negb_false_iff, String.eqb_eq in E. subst m. cbn. tauto.
Qed.

Lemma extract_fields_no_bracket p c :
  c = "["%char \/ c = "]"%char -> ~ occurs c (nth 2 (extract_fields p) "").
Proof.
  intros Hc. unfold extract_fields. destruct (negb _).
  - pose proof (extract_label_no_bracket p c Hc) as Hp.
    destruct (extract_label p) as [rest l]. cbn [snd] in Hp.
    destruct (Py.split " - " rest) as [|s0 [|s1 r]]; exact Hp.
  - destruct Hc as [-> | ->]; cbn; intuition discriminate.
Qed.

(** The label of a parsed track never holds a square bracket. *)
Theorem label_without_brackets raw_track artist track label :
  parse_track raw_track = Ok [artist; track; label] ->
  Py.contains "[" label = false /\ Py.contains "]" label = false.
Proof.
  intros H. unfold parse_track in H.
  destruct (strip_leading raw_track) as [p|]; [|discriminate].
  cbn [bind] in H. injection H as H.
  assert (Hl : label = nth 2 (extract_fields p) "") by (rewrite H; reflexivity).
  subst label.
  split; apply contains_char_false; apply extract_fields_no_bracket; auto.
Qed.

Lemma label_without_brackets_witness :
  Py.contains "[" "Mix - Track Label" = false /\
  Py.contains "]" "Mix - Track Label" = false.
Proof.
  apply (label_without_brackets "Artist [Mix] - Track [Label]"
           "unknown" "unknown" "Mix - Track Label").
  reflexivity.
Defined.

Lemma label_search_no_bracket p :
  Py.contains "[" p = false -> Re.label_search p = None.
Proof.
  induction p as [|c r IH]; intros H; [reflexivity|].
  cbn [Py.contains Py.startswith] in H.
  apply orb_false_iff in H as [Hc Hr]. rewrite andb_true_r in Hc.
  cbn [Re.label_search]. rewrite (Ascii.eqb_sym c "["), Hc. exact (IH Hr).
Qed.

(** A cleaned line without an opening bracket, and not made of question
    marks, has the empty label, and its artist and title are read from the
    untouched line: the first two " - " segments, or "unknown" twice when
    there is only one. *)
Theorem fields_without_bracket p :
  Py.contains "[" p = false ->
  Py.strip (Re.sub_qmarks p) <> "" ->
  extract_label p = (p, "") /\
  extract_fields p
  = match Py.split " - " p with
    | s0 :: s1 :: _ =>
        [fold_left cut_feat [" Feat."; " Featuring"] (Py.strip s0);
         Py.strip s1; ""]
    | _ => ["unknown"; "unknown"; ""]
    end.
Proof.
  intros Hb Hq.
  assert (He : extract_label p = (p, "")).
  { unfold extract_label. rewrite (label_search_no_bracket _ Hb). reflexivity. }
  split; [exact He|].
  unfold extract_fields. apply String.eqb_neq in Hq. rewrite Hq, He.
  reflexivity.
Qed.

Lemma fields_without_bracket_witness :
  extract_label "Artist Name Feat. X - Track Title - Remix"
  = ("Artist Name Feat. X - Track Title - Remix", "") /\
  extract_fields "Artist Name Feat. X - Track Title - Remix"
  = ["Artist Name"; "Track Title"; ""].
Proof.
  apply (fields_without_bracket "Artist Name Feat. X - Track Title - Remix");
    [reflexivity|discriminate].
Defined.

(** *** The featuring cut *)

Lemma startswith_nil_r p : Py.startswith p "" = true -> p = "".
Proof. destruct p; [reflexivity|discriminate]. Qed.

Lemma startswith_trans a b c :
  Py.startswith a b = true -> Py.startswith b c = true ->
  Py.startswith a c = true.
Proof.
  revert b c. induction a as [|x a IH]; intros b c Hab Hbc; [reflexivity|].
  destruct b as [|y b]; [discriminate|].
  destruct c as [|z c]; [discriminate|].
  cbn [Py.startswith] in *.
  apply andb_true_iff in Hab as [Hxy Hab].
  apply andb_true_iff in Hbc as [Hyz Hbc].
  apply Ascii.eqb_eq in Hxy, Hyz. subst.
  rewrite Ascii.eqb_refl. exact (IH _ _ Hab Hbc).
Qed.

Lemma contains_prefix sub y x :
  Py.startswith y x = true -> Py.contains sub y = true ->
  Py.contains sub x = true.
Proof.
  revert x. induction y as [|c y IH]; intros x Hyx H.
  - cbn [Py.contains] in H. rewrite orb_false_r in H.
    apply startswith_nil_r in H. subst sub. destruct x; reflexivity.
  - destruct x as [|d x]; [discriminate|].
    cbn [Py.startswith] in Hyx. apply andb_true_iff in Hyx as [Hcd Hyx].
    apply Ascii.eqb_eq in Hcd. subst d.
    cbn [Py.contains] in H |- *. apply orb_true_iff in H as [H|H].
    + rewrite (startswith_trans sub (String c y) (String c x)); [reflexivity|exact H|].
      cbn [Py.startswith]. rewrite Ascii.eqb_refl. exact Hyx.
    + rewrite (IH _ Hyx H). apply orb_true_r.
Qed.

Lemma hd_split_prefix sep s :
  Py.startswith (hd "" (Py.split sep s)) s = true.
Proof.
  unfold Py.split. induction s as [|c r IH]; [reflexivity|].
  cbn [Py.split_from]. destruct (Py.startswith sep (String c r)); [reflexivity|].
  destruct (Py.split_from sep 0 r) as [|h t]; cbn [hd Py.startswith] in *;
    rewrite Ascii.eqb_refl; [reflexivity|exact IH].
Qed.

Lemma contains_cons sub c r :
  Py.contains sub (String c r)
  = Py.startswith sub (String c r) || Py.contains sub r.
Proof. reflexivity. Qed.

Lemma hd_split_no_separator sep s :
  sep <> "" -> Py.contains sep (hd "" (Py.split sep s)) = false.
Proof.
  intros Hsep.
  assert (Hnil : Py.contains sep "" = false).
  { destruct sep; [congruence|reflexivity]. }
  pose proof (hd_split_prefix sep) as Hpre. unfold Py.split in *.
  induction s as [|c r IH]; [exact Hnil|].
  cbn [Py.split_from]. destruct (Py.startswith sep (String c r)) eqn:E;
    [exact Hnil|].
  specialize (Hpre r).
  destruct (Py.split_from sep 0 r) as [|h t]; cbn [hd] in *.
  - rewrite contains_cons, Hnil, orb_false_r.
    destruct (Py.startswith sep (String c "")) eqn:E'; [|reflexivity].
    rewrite (startswith_trans sep (String c "") (String c r)) in E;
      [discriminate|exact E'|].
    cbn [Py.startswith]. rewrite Ascii.eqb_refl. reflexivity.
  - rewrite contains_cons, IH, orb_false_r.
    destruct (Py.startswith sep (String c h)) eqn:E'; [|reflexivity].
    rewrite (startswith_trans sep (String c h) (String c r)) in E;
      [discriminate|exact E'|].
    cbn [Py.startswith]. rewrite Ascii.eqb_refl. exact Hpre.
Qed.

Lemma cut_feat_prefix artist feat :
  Py.startswith (cut_feat artist feat) artist = true.
Proof.
  unfold cut_feat. destruct (Py.contains feat artist).
  - apply hd_split_prefix.
  - apply startswith_refl.
Qed.

Lemma cut_feat_cuts artist feat :
  feat <> "" -> Py.contains feat (cut_feat artist feat) = false.
Proof.
  intros H. unfold cut_feat. destruct (Py.contains feat artist) eqn:E.
  - now apply hd_split_no_separator.
  - exact E.
Qed.

Lemma feat_loop_cuts a :
  Py.contains " Feat." (fold_left cut_feat [" Feat."; " Featuring"] a) = false /\
  Py.contains " Featuring" (fold_left cut_feat [" Feat."; " Featuring"] a)
  = false.
Proof.
  cbn [fold_left]. split.
  - destruct (Py.contains " Feat." (cut_feat (cut_feat a " Feat.") " Featuring"))
      eqn:E; [|reflexivity].
    apply (contains_prefix _ _ (cut_feat a " Feat.")) in E;
      [|apply cut_feat_prefix].
    rewrite cut_feat_cuts in E; [discriminate|discriminate].
  - apply cut_feat_cuts. discriminate.
Qed.

Lemma extract_fields_artist p :
  Py.contains " Feat." (nth 0 (extract_fields p) "") = false /\
  Py.contains " Featuring" (nth 0 (extract_fields p) "") = false.
Proof.
  unfold extract_fields. destruct (negb _); [|split; reflexivity].
  destruct (extract_label p) as [rest l].
  destruct (Py.split " - " rest) as [|s0 [|s1 r]]; try (split; reflexivity).
  cbn [nth]. apply feat_loop_cuts.
Qed.

(** The artist of a parsed track holds neither " Feat." nor " Featuring":
    the listing that follows either word is cut off with it. *)
Theorem artist_without_featuring raw_track artist track label :
  parse_track raw_track = Ok [artist; track; label] ->
  Py.contains " Feat." artist = false /\
  Py.contains " Featuring" artist = false.
Proof.
  intros H. unfold parse_track in H.
  destruct (strip_leading raw_track) as [p|]; [|discriminate].
  cbn [bind] in H. injection H as H.
  assert (Ha : artist = nth 0 (extract_fields p) "") by (rewrite H; reflexivity).
  subst artist. apply extract_fields_artist.
Qed.

Lemma artist_without_featuring_witness :
  Py.contains " Feat." "DJ A" = false /\
  Py.contains " Featuring" "DJ A" = false.
Proof.
  apply (artist_without_featuring
           "12. DJ A Featuring MC B Feat. C - Tune [Label]"
           "DJ A" "Tune" "Label").
  reflexivity.
Defined.

(** ** Tracklist Splitter: what it returns and when it raises *)

Lemma parse_tracklist_no_header_witness :
  parse_tracklist ("{{Mixinfo}}" ++ nl ++ "[[Category:House]]") = Raise TypeError.
Proof.
  apply parse_tracklist_no_header; reflexivity.
Defined.

(** A duplicate pointer needs its second line: a document of one line that
    contains "Fake" or "Repeat" raises [IndexError]. *)
Theorem parse_tracklist_pointer_alone_raises text :
  Py.contains nl text = false ->
  existsb (fun message => Py.contains message text) ["Fake"; "Repeat"] = true ->
  parse_tracklist text = Raise IndexError.
Proof.
  intros Hnl Hdup. unfold parse_tracklist.
  rewrite (split_no_separator _ _ Hnl). cbn [item nth_error bind].
  rewrite Hdup. reflexivity.
Qed.

Lemma parse_tracklist_pointer_alone_raises_witness :
  parse_tracklist "{{Repeat}}" = Raise IndexError.
Proof.
  apply parse_tracklist_pointer_alone_raises; reflexivity.
Defined.

Lemma repeated_fold cs b :
  fold_left
    (fun d category =>
       if Py.contains "{{Repeated|" category then DupBool true else d)
    cs (DupBool b)
  = DupBool (b || existsb (Py.contains "{{Repeated|") cs).
Proof.
  revert b. induction cs as [|c r IH]; intros b; cbn [fold_left existsb].
  - now rewrite orb_false_r.
  - destruct (Py.contains "{{Repeated|" c).
    + rewrite IH. cbn [orb]. now rewrite orb_true_r.
    + rewrite IH. reflexivity.
Qed.

(** Whenever the splitter returns, the result has one of two shapes: a
    duplicate pointer, with neither tracklist nor categories and the text of
    the second line as marker; or a tracklist and categories together, no
    track line empty, with a boolean flag that is [True] exactly when some
    category contains "{{Repeated|".  The triple (None, None, False) is
    never returned. *)
Theorem parse_tracklist_result_shape text r :
  parse_tracklist text = Ok r ->
  (exists marker, r = (None, None, DupText marker)) \/
  (exists tracklist categories,
      r = (Some tracklist, Some categories,
           DupBool (existsb (Py.contains "{{Repeated|") categories)) /\
      Forall (fun l => l <> "") tracklist).
Proof.
  unfold parse_tracklist. rewrite item_split_0. cbn [bind].
  destruct (existsb _ _).
  - destruct (item (Py.split nl text) 1) as [l1|]; [|discriminate].
    cbn [bind]. intros H. injection H as <-. left. eexists; reflexivity.
  - destruct (Py.mem "== Tracklist ==" (Py.split nl text)); [|discriminate].
    intros H. injection H as <-. right.
    eexists; eexists. split.
    + rewrite repeated_fold. reflexivity.
    + apply Forall_forall. intros l Hl.
      unfold Py.filter_truthy in Hl. apply filter_In in Hl as [_ Hl].
      apply negb_true_iff in Hl. now apply String.eqb_neq.
Qed.

Lemma parse_tracklist_result_shape_witness :
  (exists marker,
      (Some ["A - B"], Some ["House"; "{{Repeated|2001"], DupBool true)
      = (None, None, DupText marker)) \/
  (exists tracklist categories,
      (Some ["A - B"], Some ["House"; "{{Repeated|2001"], DupBool true)
      = (Some tracklist, Some categories,
         DupBool (existsb (Py.contains "{{Repeated|") categories)) /\
      Forall (fun l => l <> "") tracklist).
Proof.
  apply (parse_tracklist_result_shape
           ("== Tracklist ==" ++ nl ++ "A - B" ++ nl ++ nl
            ++ "[[Category:House]]" ++ nl ++ "[[Category:{{Repeated|2001]]")).
  reflexivity.
Defined.

(** ** Link Parser: errors and invariants *)

(** A title in which no " - " is left once the boilerplate is removed has
    no artist segment: [parse_mix_link] raises [IndexError] (and the caller
    skips the entry). *)
Theorem parse_mix_link_single_segment_raises tag :
  Py.mem (href tag) MIXES_TO_IGNORE = false ->
  Py.contains " - " (bare_title tag) = false ->
  parse_mix_link tag = Raise IndexError.
Proof.
  intros Hign Hsep. unfold parse_mix_link. rewrite Hign.
  fold (bare_title tag). rewrite (split_no_separator _ _ Hsep).
  cbn [item nth_error bind].
  destruct (Nat.eqb (String.length (bare_title tag)) 10); [reflexivity|].
  destruct (Pat.search DATE_REGEX (bare_title tag)); reflexivity.
Qed.

Lemma parse_mix_link_single_segment_raises_witness :
  parse_mix_link {| href := "/w/x"; title := "Pete Tong - Essential Mix" |}
  = Raise IndexError.
Proof.
  apply parse_mix_link_single_segment_raises; reflexivity.
Defined.

Lemma take_matches_length p s :
  Pat.matches p s = true -> String.length (Py.take (length p) s) = length p.
Proof.
  revert s. induction p as [|q p IH]; intros s H; [reflexivity|].
  destruct s as [|c r]; [discriminate|].
  cbn [Pat.matches] in H. apply andb_true_iff in H as [_ H].
  cbn [length Py.take String.length]. f_equal. exact (IH _ H).
Qed.

Lemma search_length p s m :
  Pat.search p s = Some m -> String.length m = length p.
Proof.
  induction s as [|c r IH]; cbn [Pat.search].
  - destruct (Pat.matches p "") eqn:E; [|discriminate].
    intros H. injection H as <-. now apply take_matches_length.
  - destruct (Pat.matches p (String c r)) eqn:E; [|exact IH].
    intros H. injection H as <-. now apply take_matches_length.
Qed.

Lemma split_nonempty sep s : Py.split sep s <> [].
Proof. apply split_from_nonempty. Qed.

(** Whenever [parse_mix_link] returns an entry, its key is the link's own
    url, which is not on the ignore list, there is at least one artist, and
    the date is either empty or exactly ten characters long. *)
Theorem parse_mix_link_result tag mix_url mix_data :
  parse_mix_link tag = Ok (Some (mix_url, mix_data)) ->
  mix_url = href tag /\
  Py.mem mix_url MIXES_TO_IGNORE = false /\
  artists mix_data <> [] /\
  (date mix_data = "" \/ String.length (date mix_data) = 10).
Proof.
  unfold parse_mix_link.
  destruct (Py.mem (href tag) MIXES_TO_IGNORE) eqn:Hign; [discriminate|].
  fold (bare_title tag).
  destruct (item (Py.split " - " (bare_title tag)) 0) as [s0|]; [|discriminate].
  cbn [bind].
  set (ds := if Nat.eqb (String.length s0) 10 then _ else _).
  assert (Hd : forall d segs, ds = Ok (d, segs) ->
                              d = "" \/ String.length d = 10).
  { subst ds. intros d segs.
    destruct (Nat.eqb (String.length s0) 10) eqn:E.
    - intros H. injection H as <- _. right. now apply Nat.eqb_eq.
    - destruct (Pat.search DATE_REGEX (bare_title tag)) as [m|] eqn:S.
      + destruct (item (Py.split " - " (bare_title tag)) 1); [|discriminate].
        cbn [bind]. destruct (set_item1 _ _); [|discriminate].
        cbn [bind]. intros H. injection H as <- _.
        right. exact (search_length _ _ _ S).
      + intros H. injection H as <- _. left. reflexivity. }
  destruct ds as [[d segs]|]; [|discriminate]. cbn [bind].
  specialize (Hd d segs eq_refl).
  destruct (item segs 1) as [s1|]; [|discriminate]. cbn [bind].
  destruct (item (Py.split " @ " s1) 0) as [a|]; [|discriminate]. cbn [bind].
  destruct (if Nat.ltb 1 (length (Py.split " @ " s1)) then _ else _)
    as [v|]; [|discriminate].
  cbn [bind]. intros H. injection H as <- <-. cbn [artists date].
  repeat split; try assumption.
  intros Hm. apply map_eq_nil in Hm. exact (split_nonempty _ _ Hm).
Qed.

Lemma parse_mix_link_key tag mix_url mix_data :
  parse_mix_link tag = Ok (Some (mix_url, mix_data)) ->
  mix_url = href tag /\ Py.mem mix_url MIXES_TO_IGNORE = false.
Proof.
  unfold parse_mix_link.
  destruct (Py.mem (href tag) MIXES_TO_IGNORE) eqn:Hign; [discriminate|].
  destruct (item _ 0) as [s0|]; [|discriminate]. cbn [bind].
  destruct (if Nat.eqb (String.length s0) 10 then _ else _) as [[d segs]|];
    [|discriminate].
  cbn [bind]. destruct (item segs 1) as [s1|]; [|discriminate]. cbn [bind].
  destruct (item (Py.split " @ " s1) 0) as [a|]; [|discriminate]. cbn [bind].
  destruct (if Nat.ltb 1 (length (Py.split " @ " s1)) then _ else _)
    as [v|]; [|discriminate].
  cbn [bind]. intros H. injection H as <- _. split; [reflexivity|exact Hign].
Qed.

Lemma parse_mix_link_result_witness :
  "/w/x" = href {| href := "/w/x";
                   title := "Ibiza - Carl Cox @ Space (Essential Mix, 2001-07-15)" |} /\
  Py.mem "/w/x" MIXES_TO_IGNORE = false /\
  artists {| date := "2001-07-15"; artists := ["Carl Cox"]; venue := "Space" |}
  <> [] /\
  (date {| date := "2001-07-15"; artists := ["Carl Cox"]; venue := "Space" |} = ""
   \/ String.length
        (date {| date := "2001-07-15"; artists := ["Carl Cox"]; venue := "Space" |})
      = 10).
Proof.
  apply (parse_mix_link_result
           {| href := "/w/x";
              title := "Ibiza - Carl Cox @ Space (Essential Mix, 2001-07-15)" |}).
  reflexivity.
Defined.

(** ** Catalogue walk *)

Lemma dict_get_set_same (V : Type) k (v : V) d :
  dict_get k (dict_set k v d) = Some v.
Proof.
  induction d as [|[k' v'] r IH]; cbn [dict_set dict_get].
  - now rewrite String.eqb_refl.
  - destruct (String.eqb k' k) eqn:E; cbn [dict_get].
    + now rewrite String.eqb_refl.
    + rewrite E. exact IH.
Qed.

Lemma dict_get_set_other (V : Type) k u (v : V) d :
  k <> u -> dict_get u (dict_set k v d) = dict_get u d.
Proof.
  intros Hku. apply String.eqb_neq in Hku.
  induction d as [|[k' v'] r IH]; cbn [dict_set dict_get].
  - now rewrite Hku.
  - destruct (String.eqb k' k) eqn:E; cbn [dict_get].
    + apply String.eqb_eq in E. subst k'. now rewrite Hku.
    + destruct (String.eqb k' u); [reflexivity|exact IH].
Qed.

(** A url of the ignore list never becomes a key of the catalogue, however
    many links carry it. *)
Theorem add_links_never_ignored mix_links data u :
  Py.mem u MIXES_TO_IGNORE = true ->
  dict_get u data = None ->
  dict_get u (add_links data mix_links) = None.
Proof.
  intros Hu. unfold add_links. revert data.
  induction mix_links as [|link r IH]; intros data Hd; [exact Hd|].
  cbn [fold_left]. apply IH. unfold add_link.
  destruct (parse_mix_link link) as [[[url i]|]|] eqn:E; try exact Hd.
  destruct (negb (String.eqb url "")); [|exact Hd].
  apply parse_mix_link_key in E as (_ & Hign).
  rewrite dict_get_set_other; [exact Hd|]. intros ->. congruence.
Qed.

Lemma add_links_never_ignored_witness :
  dict_get "/w/1998-01_-_David_Holmes_-_Essential_Mix"
    (add_links []
       [{| href := "/w/a"; title := "1998-01-03 - Sasha - Essential Mix" |};
        {| href := "/w/1998-01_-_David_Holmes_-_Essential_Mix";
           title := "1998-01 - David Holmes - Essential Mix" |}])
  = None.
Proof.
  apply add_links_never_ignored; reflexivity.
Defined.

(** A link on which [parse_mix_link] raises is passed over and the walk
    goes on: the catalogue is the one built from the other links. *)
Theorem add_links_skips_failure data before bad after e :
  parse_mix_link bad = Raise e ->
  add_links data (before ++ bad :: after)%list
  = add_links data (before ++ after)%list.
Proof.
  intros H. unfold add_links. rewrite !fold_left_app. cbn [fold_left].
  unfold add_link at 2. rewrite H. reflexivity.
Qed.

Lemma add_links_skips_failure_witness :
  add_links []
    ([{| href := "/w/a"; title := "1998-01-03 - Sasha - Essential Mix" |}]
     ++ {| href := "/w/b"; title := "Essential Mix" |}
     :: [{| href := "/w/c"; title := "1998-01-10 - Fergie - Essential Mix" |}])%list
  = add_links []
      ([{| href := "/w/a"; title := "1998-01-03 - Sasha - Essential Mix" |}]
       ++ [{| href := "/w/c"; title := "1998-01-10 - Fergie - Essential Mix" |}])%list.
Proof.
  apply (add_links_skips_failure _ _ _ _ IndexError). reflexivity.
Defined.

Lemma add_link_other_url data link u :
  (forall i, parse_mix_link link <> Ok (Some (u, i))) ->
  dict_get u (add_link data link) = dict_get u data.
Proof.
  intros H. unfold add_link.
  destruct (parse_mix_link link) as [[[url i]|]|] eqn:E; try reflexivity.
  destruct (negb (String.eqb url "")); [|reflexivity].
  apply dict_get_set_other. intros ->. exact (H i eq_refl).
Qed.

Lemma add_links_other_urls after data u :
  Forall (fun l => forall i, parse_mix_link l <> Ok (Some (u, i))) after ->
  dict_get u (add_links data after) = dict_get u data.
Proof.
  unfold add_links. revert data.
  induction after as [|l r IH]; intros data H; [reflexivity|].
  inversion H as [|? ? Hl Hr]; subst. cbn [fold_left].
  rewrite (IH _ Hr). now apply add_link_other_url.
Qed.

(** The entry of a url is the one of the last link on which
    [parse_mix_link] returns an entry for it: the links after it, which
    return entries for other urls, return nothing or raise, leave it as it
    is, and what the links before it stored under the url is replaced. *)
Theorem add_links_last_wins data before link after mix_url mix_data :
  parse_mix_link link = Ok (Some (mix_url, mix_data)) ->
  mix_url <> "" ->
  Forall (fun l => forall i, parse_mix_link l <> Ok (Some (mix_url, i))) after ->
  dict_get mix_url (add_links data (before ++ link :: after)%list)
  = Some mix_data.
Proof.
  intros H Hne Hafter.
  assert (Hsplit : add_links data (before ++ link :: after)%list
                   = add_links (add_link (add_links data before) link) after).
  { unfold add_links. rewrite fold_left_app. reflexivity. }
  rewrite Hsplit, (add_links_other_urls _ _ _ Hafter).
  unfold add_link. rewrite H.
  apply String.eqb_neq in Hne. rewrite Hne. cbn [negb].
  apply dict_get_set_same.
Qed.

Lemma add_links_last_wins_witness :
  dict_get "/w/a"
    (add_links []
       ([{| href := "/w/a"; title := "1998-01-03 - Sasha - Essential Mix" |};
         {| href := "/w/b"; title := "1998-01-10 - Fergie - Essential Mix" |}]
        ++ {| href := "/w/a";
              title := "1998-01-03 - Sasha, John Digweed - Essential Mix" |}
        :: [{| href := "/w/c"; title := "1998-01-17 - Carl Cox - Essential Mix" |};
            {| href := "/w/a"; title := "Essential Mix" |};
            {| href := "/w/1998-01_-_David_Holmes_-_Essential_Mix";
               title := "1998-01 - David Holmes - Essential Mix" |}])%list)
  = Some {| date := "1998-01-03"; artists := ["Sasha"; "John Digweed"];
            venue := "" |}.
Proof.
  apply add_links_last_wins; [reflexivity | discriminate |].
  repeat constructor; intros i H; vm_compute in H; discriminate H.
Defined.

(** ** Category Cleaner: when it returns and when it raises *)

Lemma clean_categories_filter_witness :
  clean_categories ["Sasha"] "1999-08-01"
    ["Essential Mix"; "Trance"; "Sasha"; "1999"; "Ibiza 1999"; "Cream"; "House"]
  = Ok (filter
          (fun c => negb (removed (remove_categories ["Sasha"] "1999-08-01") c))
          ["Essential Mix"; "Trance"; "Sasha"; "1999"; "Ibiza 1999"; "Cream";
           "House"]).
Proof.
  apply clean_categories_filter. repeat constructor.
Defined.

Lemma list_remove_count x cs cs' :
  list_remove x cs = Ok cs' ->
  forall y, count_occ string_dec cs y
            = count_occ string_dec cs' y + (if string_dec x y then 1 else 0).
Proof.
  revert cs'. induction cs as [|z r IH]; intros cs' H y; [discriminate|].
  cbn [list_remove] in H. destruct (String.eqb_spec z x) as [->|Hzx].
  - injection H as <-. cbn [count_occ]. destruct (string_dec x y); lia.
  - destruct (list_remove x r) as [r'|]; [|discriminate].
    cbn [bind] in H. injection H as <-. cbn [count_occ].
    specialize (IH r' eq_refl y). destruct (string_dec z y); lia.
Qed.

Lemma list_remove_error x cs e : list_remove x cs = Raise e -> e = ValueError.
Proof.
  induction cs as [|z r IH]; cbn [list_remove].
  - intros H. now injection H as <-.
  - destruct (String.eqb z x); [discriminate|].
    destruct (list_remove x r); cbn [bind]; [discriminate|].
    intros H. injection H as <-. now apply IH.
Qed.

Lemma remove_if_count (b : bool) x cs cs' :
  (if b then list_remove x cs else Ok cs) = Ok cs' ->
  forall y, count_occ string_dec cs y
            = count_occ string_dec cs' y
              + (if string_dec x y then Nat.b2n b else 0).
Proof.
  destruct b; intros H y.
  - exact (list_remove_count _ _ _ H y).
  - injection H as <-. cbn [Nat.b2n]. destruct (string_dec x y); lia.
Qed.

Lemma remove_if_error (b : bool) x cs e :
  (if b then list_remove x cs else Ok cs) = Raise e -> e = ValueError.
Proof.
  destruct b; [apply list_remove_error|discriminate].
Qed.

Lemma clean_step_outcome removal cs c :
  match clean_step removal (Ok cs) c with
  | Ok cs' =>
      forall y, count_occ string_dec cs y
                = count_occ string_dec cs' y
                  + (if string_dec c y then hits removal c else 0)
  | Raise e => e = ValueError
  end.
Proof.
  unfold clean_step, hits.
  cbn [bind fold_left UNNECESSARY_CATEGORIES map list_sum].
  set (b0 := Py.mem (Py.strip c) removal).
  set (b1 := Pat.matches _ c). set (b2 := Pat.matches _ c).
  destruct (if b0 then list_remove c cs else Ok cs) as [cs0|e0] eqn:E0;
    cbn [bind]; [|exact (remove_if_error _ _ _ _ E0)].
  destruct (if b1 then list_remove c cs0 else Ok cs0) as [cs1|e1] eqn:E1;
    cbn [bind]; [|exact (remove_if_error _ _ _ _ E1)].
  destruct (if b2 then list_remove c cs1 else Ok cs1) as [cs2|e2] eqn:E2;
    [|exact (remove_if_error _ _ _ _ E2)].
  intros y.
  pose proof (remove_if_count _ _ _ _ E0 y).
  pose proof (remove_if_count _ _ _ _ E1 y).
  pose proof (remove_if_count _ _ _ _ E2 y).
  change (list_sum [Nat.b2n b1; Nat.b2n b2])
    with (Nat.b2n b1 + (Nat.b2n b2 + 0)).
  destruct (string_dec c y); lia.
Qed.

Lemma clean_fold_raise removal todo e :
  fold_left (clean_step removal) todo (Raise e) = Raise e.
Proof. induction todo as [|c r IH]; [reflexivity|exact IH]. Qed.

Lemma clean_fold_outcome removal todo :
  forall cs,
    match fold_left (clean_step removal) todo (Ok cs) with
    | Ok cs' =>
        forall y, count_occ string_dec cs y
                  = count_occ string_dec cs' y
                    + hits removal y * count_occ string_dec todo y
    | Raise e => e = ValueError
    end.
Proof.
  induction todo as [|c r IH]; intros cs; cbn [fold_left].
  - intros y. cbn [count_occ]. lia.
  - pose proof (clean_step_outcome removal cs c) as Hs.
    destruct (clean_step removal (Ok cs) c) as [cs1|e1].
    + specialize (IH cs1).
      destruct (fold_left (clean_step removal) r (Ok cs1)) as [cs'|e];
        [|exact IH].
      intros y. specialize (IH y). specialize (Hs y). cbn [count_occ].
      destruct (string_dec c y) as [->|]; lia.
    + rewrite clean_fold_raise. exact Hs.
Qed.

Lemma double_hit_hits removal c :
  Py.mem (Py.strip c) removal && unnecessary c = true -> 2 <= hits removal c.
Proof.
  unfold hits, unnecessary.
  cbn [existsb UNNECESSARY_CATEGORIES map list_sum].
  destruct (Py.mem (Py.strip c) removal); [|discriminate].
  cbn [andb Nat.b2n]. do 2 destruct (Pat.matches _ c); cbn; (discriminate || lia).
Qed.

Lemma clean_ok_no_double_hit artists date cs cs' :
  clean_categories artists date cs = Ok cs' ->
  Forall (fun c => Py.mem (Py.strip c) (remove_categories artists date)
                   && unnecessary c = false) cs.
Proof.
  intros H. unfold clean_categories in H.
  pose proof (clean_fold_outcome (remove_categories artists date) cs cs) as Hc.
  rewrite H in Hc. apply Forall_forall. intros c Hin.
  destruct (Py.mem _ _ && unnecessary c) eqn:E; [|reflexivity].
  apply double_hit_hits in E. specialize (Hc c).
  apply (count_occ_In string_dec) in Hin. nia.
Qed.

(** The cleaner raises exactly on a double hit: when some category is both
    in the removal list and matched by a pattern, [clean_categories] raises
    [ValueError], whatever the other categories are. *)
Theorem clean_categories_double_hit artists date value_categories :
  Exists (fun c => Py.mem (Py.strip c) (remove_categories artists date)
                   && unnecessary c = true) value_categories ->
  clean_categories artists date value_categories = Raise ValueError.
Proof.
  intros Hex.
  destruct (clean_categories artists date value_categories) as [cs'|e] eqn:E.
  - apply clean_ok_no_double_hit in E. apply Exists_exists in Hex as (c & Hin & Hc).
    rewrite Forall_forall in E. rewrite (E c Hin) in Hc. discriminate.
  - unfold clean_categories in E.
    pose proof (clean_fold_outcome (remove_categories artists date)
                  value_categories value_categories) as Ho.
    rewrite E in Ho. now subst e.
Qed.

Lemma clean_categories_double_hit_witness :
  clean_categories ["Sasha"; "Ibiza 1999 Closing Party"] "1999-09-26"
    ["House"; "Ibiza 1999 Closing Party"; "Sasha"]
  = Raise ValueError.
Proof.
  apply clean_categories_double_hit.
  apply Exists_cons_tl, Exists_cons_hd. reflexivity.
Defined.

Lemma filter_idem (A : Type) (f : A -> bool) l :
  filter f (filter f l) = filter f l.
Proof.
  induction l as [|x r IH]; [reflexivity|]. cbn [filter].
  destruct (f x) eqn:E; [|exact IH]. cbn [filter]. rewrite E, IH. reflexivity.
Qed.

(** Whenever the cleaner returns, the result is the list of the categories
    that are neither in the removal list nor matched by a pattern, in their
    order, and cleaning it again returns it unchanged. *)
Theorem clean_categories_result artists date value_categories cleaned_categories :
  clean_categories artists date value_categories = Ok cleaned_categories ->
  cleaned_categories
  = filter (fun c => negb (removed (remove_categories artists date) c))
           value_categories /\
  clean_categories artists date cleaned_categories = Ok cleaned_categories.
Proof.
  intros H. pose proof (clean_ok_no_double_hit _ _ _ _ H) as Hn.
  unfold clean_categories in H.
  pose proof (clean_fold _ _ Hn [] (Forall_nil _)) as Hf. cbn [app] in Hf.
  rewrite Hf in H. injection H as <-.
  split; [reflexivity|].
  unfold clean_categories.
  assert (Hn' : Forall
                  (fun c => Py.mem (Py.strip c) (remove_categories artists date)
                            && unnecessary c = false)
                  (filter (fun c => negb (removed (remove_categories artists date) c))
                          value_categories)).
  { apply Forall_forall. intros c Hc. apply filter_In in Hc as [Hc _].
    rewrite Forall_forall in Hn. now apply Hn. }
  pose proof (clean_fold _ _ Hn' [] (Forall_nil _)) as Hf'. cbn [app] in Hf'.
  rewrite Hf'. now rewrite filter_idem.
Qed.

Lemma clean_categories_result_witness :
  ["Trance"; "House"]
  = filter (fun c => negb (removed (remove_categories ["Sasha"] "1999-08-01") c))
           ["Essential Mix"; "Trance"; " Sasha "; "1999"; "Ibiza 1999"; "House"] /\
  clean_categories ["Sasha"] "1999-08-01" ["Trance"; "House"]
  = Ok ["Trance"; "House"].
Proof.
  apply (clean_categories_result ["Sasha"] "1999-08-01"
           ["Essential Mix"; "Trance"; " Sasha "; "1999"; "Ibiza 1999"; "House"]).
  reflexivity.
Defined.

(** ** Mix Record Builder *)

Lemma process_again url m m' out :
  Mix.process url m = Mix.Done (m', out) ->
  Mix.info m' = Mix.info m /\
  Mix.tracklist m' = Mix.tracklist m /\
  Mix.categories m' = Mix.categories m /\
  Mix.tracks m' = Mix.tracks m /\
  Mix.duplicate m' = Mix.duplicate m /\
  Mix.process url m' = Mix.Done (m', out).
Proof.
  destruct m as [i tl cs ts d pt]. unfold Mix.process.
  cbn [Mix.duplicate Mix.info Mix.tracklist Mix.categories Mix.tracks].
  destruct d as [d|]; [|discriminate]. cbn [Mix.get Mix.andThen].
  destruct (Mix.truthy d) eqn:Et; cbn [negb].
  - intros H. injection H as <- <-.
    cbn [Mix.duplicate Mix.get Mix.andThen]. rewrite Et.
    repeat split; reflexivity.
  - destruct (Mix.parse_tracks_of _) as [[parsed log]|] eqn:Ep;
      cbn [Mix.andThen]; [|discriminate].
    intros H. injection H as <- <-.
    cbn [Mix.duplicate Mix.info Mix.tracklist Mix.categories Mix.tracks
         Mix.get Mix.andThen].
    rewrite Et. cbn [negb].
    unfold Mix.parse_tracks_of in *. cbn [Mix.tracks] in *. rewrite Ep.
    cbn [Mix.andThen]. repeat split; reflexivity.
Qed.

Lemma has_data_fields m m' :
  Mix.tracks m' = Mix.tracks m ->
  Mix.categories m' = Mix.categories m ->
  Mix.duplicate m' = Mix.duplicate m ->
  Mix.has_data m' = Mix.has_data m.
Proof.
  intros Ht Hc Hd. unfold Mix.has_data. now rewrite Ht, Hc, Hd.
Qed.

Lemma ensure_parsed_again m m1 m' :
  Mix.ensure_parsed m = Mix.Done m1 ->
  Mix.info m' = Mix.info m1 ->
  Mix.tracklist m' = Mix.tracklist m1 ->
  Mix.categories m' = Mix.categories m1 ->
  Mix.tracks m' = Mix.tracks m1 ->
  Mix.duplicate m' = Mix.duplicate m1 ->
  Mix.ensure_parsed m' = Mix.Done m'.
Proof.
  intros H Hi Htl Hc Ht Hd.
  pose proof (has_data_fields m1 m' Ht Hc Hd) as Hh.
  unfold Mix.ensure_parsed in *.
  destruct (Mix.has_data m') eqn:E'; [reflexivity|]. cbn [negb].
  destruct (Mix.has_data m) eqn:E; cbn [negb] in H.
  - injection H as <-. congruence.
  - destruct (Mix.tracklist m) as [[text|]|] eqn:Etl; try discriminate.
    cbn [Mix.get Mix.andThen] in H.
    destruct (parse_tracklist text) as [[[t c] d]|] eqn:Ep; [|discriminate].
    cbn [Mix.lift Mix.andThen] in H. injection H as <-.
    cbn [Mix.info Mix.tracklist Mix.categories Mix.tracks Mix.duplicate] in *.
    rewrite Htl. cbn [Mix.get Mix.andThen]. rewrite Ep.
    cbn [Mix.lift Mix.andThen]. destruct m' as [i' tl' c' t' d' p'].
    cbn [Mix.info Mix.tracklist Mix.categories Mix.tracks Mix.duplicate
         Mix.processed_tracks] in *.
    subst. reflexivity.
Qed.

(** The loop body of [parse_tracklists] is idempotent: run again on the
    record it produced, it returns the same record and prints the same
    lines (the checkpoint in the working file can be parsed again
    safely). *)
Theorem parse_mix_idempotent url mix_data mix_data' out :
  Mix.parse_mix url mix_data = Mix.Done (mix_data', out) ->
  Mix.parse_mix url mix_data' = Mix.Done (mix_data', out).
Proof.
  unfold Mix.parse_mix.
  destruct (Mix.ensure_parsed mix_data) as [m1|] eqn:E1; [|discriminate].
  cbn [Mix.andThen]. intros H.
  apply process_again in H as (Hi & Htl & Hc & Ht & Hd & Hp).
  rewrite (ensure_parsed_again _ _ _ E1 Hi Htl Hc Ht Hd).
  cbn [Mix.andThen]. exact Hp.
Qed.

Lemma parse_mix_idempotent_witness :
  Mix.parse_mix "/w/a"
    {| Mix.info := {| date := "1999-01-02"; artists := ["Sasha"]; venue := "" |};
       Mix.tracklist := Some (Some ("== Tracklist ==" ++ nl ++ "A - B"));
       Mix.categories := Some (Some []);
       Mix.tracks := Some (Some ["A - B"]);
       Mix.duplicate := Some (DupBool false);
       Mix.processed_tracks := Some [["A"; "B"; ""]] |}
  = Mix.Done
      ({| Mix.info := {| date := "1999-01-02"; artists := ["Sasha"]; venue := "" |};
          Mix.tracklist := Some (Some ("== Tracklist ==" ++ nl ++ "A - B"));
          Mix.categories := Some (Some []);
          Mix.tracks := Some (Some ["A - B"]);
          Mix.duplicate := Some (DupBool false);
          Mix.processed_tracks := Some [["A"; "B"; ""]] |},
       [Mix.PrintUrl "https://www.mixesdb.com/w/a"]).
Proof.
  apply (parse_mix_idempotent "/w/a"
           (Mix.fetched {| date := "1999-01-02"; artists := ["Sasha"]; venue := "" |}
                        ("== Tracklist ==" ++ nl ++ "A - B"))).
  reflexivity.
Defined.

(** [has_data] and the stage disagree on an empty marker.  For a duplicate
    pointer whose second line is exactly " |Original  =" the marker is the
    empty string: the record counts as having data, yet it is falsy, so the
    stage goes on to normalize tracks that are [None] and raises
    [TypeError]. *)
Theorem parse_mix_empty_marker_raises url mix_data text :
  Mix.has_data mix_data = false ->
  Mix.tracklist mix_data = Some (Some text) ->
  parse_tracklist text = Ok (None, None, DupText "") ->
  Mix.parse_mix url mix_data = Mix.Failed (Mix.Inner TypeError).
Proof.
  intros Hd Htl Hp. unfold Mix.parse_mix, Mix.ensure_parsed.
  rewrite Hd, Htl. cbn [negb Mix.get Mix.andThen]. rewrite Hp. reflexivity.
Qed.

Lemma parse_mix_empty_marker_raises_witness :
  Mix.parse_mix "/w/a"
    (Mix.fetched {| date := "1999-01-02"; artists := ["Sasha"]; venue := "" |}
                 ("{{Repeat}}" ++ nl ++ " |Original  ="))
  = Mix.Failed (Mix.Inner TypeError).
Proof.
  apply (parse_mix_empty_marker_raises _ _
           ("{{Repeat}}" ++ nl ++ " |Original  =")); reflexivity.
Defined.

(** Nothing is caught in [parse_tracklists]: when the items before a
    record are processed and the record raises, the whole stage raises the
    same exception, whatever follows. *)
Theorem parse_tracklists_stops_at_failure before url mix_data after e :
  (exists r, Mix.parse_tracklists before = Mix.Done r) ->
  Mix.parse_mix url mix_data = Mix.Failed e ->
  Mix.parse_tracklists (before ++ (url, mix_data) :: after)%list = Mix.Failed e.
Proof.
  intros Hb Hm. induction before as [|[u m] r IH]; cbn [app Mix.parse_tracklists].
  - rewrite Hm. reflexivity.
  - destruct Hb as [res Hb]. cbn [Mix.parse_tracklists] in Hb.
    destruct (Mix.parse_mix u m) as [r1|]; [|discriminate].
    cbn [Mix.andThen] in Hb |- *.
    destruct (Mix.parse_tracklists r) as [rs|] eqn:Er; [|discriminate].
    rewrite IH; [reflexivity|]. eexists; reflexivity.
Qed.

Lemma parse_tracklists_stops_at_failure_witness :
  Mix.parse_tracklists
    ([("/w/a", Mix.fetched {| date := ""; artists := ["A"]; venue := "" |}
                 ("== Tracklist ==" ++ nl ++ "A - B" ++ nl ++ "[[Category:House]]"))]
     ++ ("/w/b", Mix.fetched {| date := ""; artists := ["B"]; venue := "" |}
                   "page without a tracklist")
     :: [("/w/c", Mix.fetched {| date := ""; artists := ["C"]; venue := "" |}
                    ("== Tracklist ==" ++ nl ++ "C - D" ++ nl ++ "[[Category:House]]"))])%list
  = Mix.Failed (Mix.Inner TypeError).
Proof.
  apply parse_tracklists_stops_at_failure;
    [eexists; reflexivity | reflexivity].
Defined.

Lemma parse_mix_of_fetched url i text tracklist categories :
  parse_tracklist text = Ok (Some tracklist, Some categories, DupBool false) ->
  Mix.parse_mix url (Mix.fetched i text)
  = Mix.Done
      ({| Mix.info := i;
          Mix.tracklist := Some (Some text);
          Mix.categories := Some (Some categories);
          Mix.tracks := Some (Some tracklist);
          Mix.duplicate := Some (DupBool false);
          Mix.processed_tracks :=
            Some (map (fun t => extract_fields (cleaned t))
                      (filter kept tracklist)) |},
       if Mix.filled (Some (Some tracklist)) && Mix.filled (Some (Some categories))
       then [] else [Mix.PrintUrl ("https://www.mixesdb.com" ++ url)]).
Proof.
  intros Hp. pose proof (parse_tracklist_lines_nonempty _ _ _ _ Hp) as Hne.
  unfold Mix.parse_mix, Mix.ensure_parsed, Mix.fetched.
  cbn [Mix.has_data Mix.tracks Mix.categories Mix.duplicate Mix.filled andb orb
       negb Mix.tracklist Mix.get Mix.andThen].
  rewrite Hp. cbn [Mix.lift Mix.andThen]. unfold Mix.process.
  cbn [Mix.duplicate Mix.get Mix.andThen Mix.truthy negb].
  unfold Mix.parse_tracks_of. cbn [Mix.tracks].
  rewrite (parse_tracks_nonempty _ Hne). cbn [Mix.lift Mix.andThen map].
  rewrite app_nil_r. clear Hp Hne.
  destruct tracklist as [|t0 tr], categories as [|c0 cr]; reflexivity.
Qed.

Lemma parse_mix_of_fetched_sample :
  Mix.parse_mix "/w/a"
    (Mix.fetched {| date := "1999-01-02"; artists := ["Sasha"]; venue := "" |}
       ("== Tracklist ==" ++ nl ++ "<list>" ++ nl ++ "# A - B [C]" ++ nl
        ++ "</list>" ++ nl ++ "[[Category:House]]"))
  = Mix.Done
      ({| Mix.info := {| date := "1999-01-02"; artists := ["Sasha"]; venue := "" |};
          Mix.tracklist :=
            Some (Some ("== Tracklist ==" ++ nl ++ "<list>" ++ nl ++ "# A - B [C]"
                        ++ nl ++ "</list>" ++ nl ++ "[[Category:House]]"));
          Mix.categories := Some (Some ["House"]);
          Mix.tracks := Some (Some ["<list>"; "# A - B [C]"; "</list>"]);
          Mix.duplicate := Some (DupBool false);
          Mix.processed_tracks :=
            Some (map (fun t => extract_fields (cleaned t))
                      (filter kept ["<list>"; "# A - B [C]"; "</list>"])) |},
       if Mix.filled (Some (Some ["<list>"; "# A - B [C]"; "</list>"]))
          && Mix.filled (Some (Some ["House"]))
       then [] else [Mix.PrintUrl ("https://www.mixesdb.com" ++ "/w/a")]).
Proof.
  apply parse_mix_of_fetched. reflexivity.
Qed.

Lemma truthy_not_False d : Mix.truthy d = true -> Mix.not_False d = true.
Proof. destruct d; cbn; auto. Qed.

(** A freshly fetched record whose document is flagged as a duplicate (a
    pointer with a non-empty marker, or a "{{Repeated|" category) gets its
    three fields and nothing else: its tracks are not normalized and no
    anomaly is printed. *)
Theorem parse_mix_duplicate url i text tracklist categories d :
  parse_tracklist text = Ok (tracklist, categories, d) ->
  Mix.truthy d = true ->
  Mix.parse_mix url (Mix.fetched i text)
  = Mix.Done
      ({| Mix.info := i;
          Mix.tracklist := Some (Some text);
          Mix.categories := Some categories;
          Mix.tracks := Some tracklist;
          Mix.duplicate := Some d;
          Mix.processed_tracks := None |}, []).
Proof.
  intros Hp Ht. unfold Mix.parse_mix, Mix.ensure_parsed, Mix.fetched.
  cbn [Mix.has_data Mix.tracks Mix.categories Mix.duplicate Mix.filled andb orb
       negb Mix.tracklist Mix.get Mix.andThen].
  rewrite Hp. cbn [Mix.lift Mix.andThen]. unfold Mix.process.
  cbn [Mix.duplicate Mix.get Mix.andThen Mix.processed_tracks].
  unfold Mix.has_data. cbn [Mix.duplicate].
  rewrite Ht, (truthy_not_False _ Ht), orb_true_r. reflexivity.
Qed.

Lemma parse_mix_duplicate_witness :
  Mix.parse_mix "/w/a"
    (Mix.fetched {| date := "1999-01-02"; artists := ["Sasha"]; venue := "" |}
       ("{{Fake}}" ++ nl ++ " |Original  = /w/b"))
  = Mix.Done
      ({| Mix.info := {| date := "1999-01-02"; artists := ["Sasha"]; venue := "" |};
          Mix.tracklist := Some (Some ("{{Fake}}" ++ nl ++ " |Original  = /w/b"));
          Mix.categories := Some None;
          Mix.tracks := Some None;
          Mix.duplicate := Some (DupText " /w/b");
          Mix.processed_tracks := None |}, []).
Proof.
  apply parse_mix_duplicate; reflexivity.
Defined.

(** ** Final export *)

Lemma until_brace_clean s m :
  Mix.until_brace s = Some m ->
  Py.contains "}" m = false /\ Py.contains nl m = false.
Proof.
  revert m. induction s as [|c r IH]; intros m; cbn [Mix.until_brace];
    [discriminate|].
  destruct (Ascii.eqb c "}") eqn:Eb.
  - intros H. injection H as <-. split; reflexivity.
  - destruct (Ascii.eqb c Py.newline) eqn:En; [discriminate|].
    destruct (Mix.until_brace r) as [m'|]; [|discriminate].
    cbn [option_map]. intros H. injection H as <-.
    destruct (IH m' eq_refl) as [H1 H2].
    unfold nl in *. rewrite !contains_cons, H1, H2. cbn [Py.startswith].
    rewrite !andb_true_r, (Ascii.eqb_sym "}" c), (Ascii.eqb_sym Py.newline c),
      Eb, En.
    split; reflexivity.
Qed.

Lemma length_search_clean s m :
  Mix.length_search s = Some m ->
  Py.contains "}" m = false /\ Py.contains nl m = false.
Proof.
  induction s as [|c r IH]; cbn [Mix.length_search].
  - cbn. discriminate.
  - destruct (if Py.startswith "StandardShow" (String c r)
              then Mix.until_brace (Py.drop 12 (String c r)) else None)
      as [m'|] eqn:E.
    + intros H. injection H as <-.
      destruct (Py.startswith "StandardShow" (String c r)); [|discriminate].
      exact (until_brace_clean _ _ E).
    + exact IH.
Qed.

Lemma length_search_absent s :
  Py.contains "StandardShow" s = false -> Mix.length_search s = None.
Proof.
  induction s as [|c r IH]; intros H.
  - reflexivity.
  - rewrite contains_cons in H. apply orb_false_iff in H as [Hs Hr].
    cbn [Mix.length_search]. rewrite Hs. exact (IH Hr).
Qed.

Lemma clean_value_inv key value d f :
  Mix.clean_value key value d = Mix.Done f ->
  Mix.f_url f = key /\
  Mix.f_duplicate f = d /\
  Mix.f_date f = date (Mix.info value) /\
  Mix.f_artists f = artists (Mix.info value) /\
  Mix.processed_tracks value = Some (Mix.f_tracklist f) /\
  (exists cs, Mix.categories value = Some (Some cs) /\
              clean_categories (artists (Mix.info value))
                               (date (Mix.info value)) cs
              = Ok (Mix.f_categories f)) /\
  (exists text, Mix.tracklist value = Some (Some text) /\
                Mix.f_length f
                = match Mix.length_search text with
                  | Some m => m
                  | None => "?"
                  end).
Proof.
  unfold Mix.clean_value.
  destruct (Mix.tracklist value) as [[text|]|]; cbn [Mix.get Mix.andThen];
    try discriminate.
  destruct (Mix.categories value) as [[cs|]|]; cbn [Mix.get Mix.andThen];
    try discriminate.
  destruct (clean_categories _ _ cs) as [cs'|] eqn:Ec;
    cbn [Mix.lift Mix.andThen]; [|discriminate].
  destruct (Mix.processed_tracks value) as [pt|]; cbn [Mix.get Mix.andThen];
    [|discriminate].
  destruct (Mix.tracks value) as [ts|]; cbn [Mix.get Mix.andThen];
    [|discriminate].
  intros H. injection H as <-.
  cbn [Mix.f_url Mix.f_duplicate Mix.f_date Mix.f_artists Mix.f_tracklist
       Mix.f_categories Mix.f_length].
  repeat split; try reflexivity.
  - exists cs. split; [reflexivity|exact Ec].
  - exists text. split; reflexivity.
Qed.

(** A record that [clean_data] exports carries the parsed tracks as its
    tracklist, the cleaned categories and its key as url; its length holds
    neither a closing brace nor a newline, and is "?" when the text has no
    "StandardShow" marker. *)
Theorem clean_value_result key value d f text :
  Mix.clean_value key value d = Mix.Done f ->
  Mix.tracklist value = Some (Some text) ->
  Mix.f_url f = key /\
  Mix.processed_tracks value = Some (Mix.f_tracklist f) /\
  Py.contains "}" (Mix.f_length f) = false /\
  Py.contains nl (Mix.f_length f) = false /\
  (Py.contains "StandardShow" text = false -> Mix.f_length f = "?").
Proof.
  intros H Ht.
  apply clean_value_inv in H as (Hu & _ & _ & _ & Hp & _ & (text' & Ht' & Hl)).
  rewrite Ht in Ht'. injection Ht' as <-.
  split; [exact Hu|]. split; [exact Hp|].
  rewrite Hl. destruct (Mix.length_search text) as [m|] eqn:E.
  - destruct (length_search_clean _ _ E) as [H1 H2].
    repeat split; try assumption.
    intros Ha. rewrite (length_search_absent _ Ha) in E. discriminate.
  - repeat split; reflexivity.
Qed.

Lemma clean_value_result_witness :
  Mix.f_url
    {| Mix.f_date := "1999-01-02"; Mix.f_artists := ["Sasha"];
       Mix.f_length := " 2h "; Mix.f_categories := ["House"];
       Mix.f_tracklist := [["A"; "B"; ""]]; Mix.f_duplicate := DupBool false;
       Mix.f_url := "/w/a" |} = "/w/a" /\
  Some [["A"; "B"; ""]]
  = Some (Mix.f_tracklist
            {| Mix.f_date := "1999-01-02"; Mix.f_artists := ["Sasha"];
               Mix.f_length := " 2h "; Mix.f_categories := ["House"];
               Mix.f_tracklist := [["A"; "B"; ""]];
               Mix.f_duplicate := DupBool false; Mix.f_url := "/w/a" |}) /\
  Py.contains "}" " 2h " = false /\
  Py.contains nl " 2h " = false /\
  (Py.contains "StandardShow"
     ("{{StandardShow 2h }}" ++ nl ++ "== Tracklist ==" ++ nl ++ "A - B") = false ->
   " 2h " = "?").
Proof.
  apply (clean_value_result "/w/a"
           {| Mix.info := {| date := "1999-01-02"; artists := ["Sasha"];
                             venue := "" |};
              Mix.tracklist :=
                Some (Some ("{{StandardShow 2h }}" ++ nl ++ "== Tracklist =="
                            ++ nl ++ "A - B"));
              Mix.categories := Some (Some ["Essential Mix"; "House"; "Sasha"]);
              Mix.tracks := Some (Some ["A - B"]);
              Mix.duplicate := Some (DupBool false);
              Mix.processed_tracks := Some [["A"; "B"; ""]] |}
           (DupBool false)); reflexivity.
Defined.

(** Whenever [clean_data] returns, the output holds exactly the items whose
    duplicate flag is falsy, in their order, each under its own url. *)
Theorem clean_data_exports_non_duplicates items out :
  Mix.clean_data items = Mix.Done out ->
  map Mix.f_url out = map fst (filter exported items) /\
  Forall (fun f => Mix.truthy (Mix.f_duplicate f) = false) out.
Proof.
  revert out. induction items as [|[key value] r IH]; intros out H.
  - injection H as <-. split; [reflexivity|constructor].
  - cbn [Mix.clean_data] in H. cbn [filter]. unfold exported at 1. cbn [snd].
    destruct (Mix.duplicate value) as [d|]; [|discriminate].
    cbn [Mix.get Mix.andThen] in H.
    destruct (Mix.truthy d) eqn:Et; cbn [negb] in H |- *.
    + exact (IH _ H).
    + destruct (Mix.clean_value key value d) as [f|] eqn:Ef; [|discriminate].
      cbn [Mix.andThen] in H.
      destruct (Mix.clean_data r) as [fs|]; [|discriminate].
      cbn [Mix.andThen] in H. injection H as <-.
      destruct (IH fs eq_refl) as [IH1 IH2].
      apply clean_value_inv in Ef as (Hu & Hd & _).
      cbn [map fst]. split.
      * now rewrite Hu, IH1.
      * constructor; [now rewrite Hd|exact IH2].
Qed.

Lemma clean_data_exports_non_duplicates_witness :
  map Mix.f_url
    [{| Mix.f_date := "1999-01-02"; Mix.f_artists := ["Sasha"];
        Mix.f_length := "?"; Mix.f_categories := ["House"];
        Mix.f_tracklist := [["A"; "B"; ""]]; Mix.f_duplicate := DupBool false;
        Mix.f_url := "/w/b" |}]
  = map fst
      (filter exported
         [("/w/a",
           {| Mix.info := {| date := "1999-01-09"; artists := ["Sasha"]; venue := "" |};
              Mix.tracklist := Some (Some "{{Fake}}");
              Mix.categories := Some None; Mix.tracks := Some None;
              Mix.duplicate := Some (DupText " /w/b");
              Mix.processed_tracks := None |});
          ("/w/b",
           {| Mix.info := {| date := "1999-01-02"; artists := ["Sasha"]; venue := "" |};
              Mix.tracklist := Some (Some "== Tracklist ==");
              Mix.categories := Some (Some ["House"; "Sasha"]);
              Mix.tracks := Some (Some ["A - B"]);
              Mix.duplicate := Some (DupBool false);
              Mix.processed_tracks := Some [["A"; "B"; ""]] |})]) /\
  Forall (fun f => Mix.truthy (Mix.f_duplicate f) = false)
    [{| Mix.f_date := "1999-01-02"; Mix.f_artists := ["Sasha"];
        Mix.f_length := "?"; Mix.f_categories := ["House"];
        Mix.f_tracklist := [["A"; "B"; ""]]; Mix.f_duplicate := DupBool false;
        Mix.f_url := "/w/b" |}].
Proof.
  apply clean_data_exports_non_duplicates. reflexivity.
Defined.

(** From the fetched text to the output, for a document with a tracklist
    header and no repeat flag whose categories can be cleaned: the parse
    stage fills the record, printing the url only when the tracklist or the
    categories are empty, and the export holds one record for it, with one
    track per line that [skip_track] keeps, the cleaned categories and the
    length read from the text. *)
Theorem fetched_document_exported url i text tracklist categories
    cleaned_categories :
  parse_tracklist text = Ok (Some tracklist, Some categories, DupBool false) ->
  clean_categories (artists i) (date i) categories = Ok cleaned_categories ->
  exists mix_data,
    Mix.parse_tracklists [(url, Mix.fetched i text)]
    = Mix.Done
        ([(url, mix_data)],
         if Mix.filled (Some (Some tracklist))
            && Mix.filled (Some (Some categories))
         then [] else [Mix.PrintUrl ("https://www.mixesdb.com" ++ url)]) /\
    Mix.clean_data [(url, mix_data)]
    = Mix.Done
        [{| Mix.f_date := date i;
            Mix.f_artists := artists i;
            Mix.f_length :=
              match Mix.length_search text with
              | Some m => m
              | None => "?"
              end;
            Mix.f_categories := cleaned_categories;
            Mix.f_tracklist :=
              map (fun t => extract_fields (cleaned t)) (filter kept tracklist);
            Mix.f_duplicate := DupBool false;
            Mix.f_url := url |}].
Proof.
  intros Hp Hc. eexists. split.
  - cbn [Mix.parse_tracklists]. rewrite (parse_mix_of_fetched _ _ _ _ _ Hp).
    cbn [Mix.andThen fst snd]. rewrite app_nil_r. reflexivity.
  - cbn [Mix.clean_data Mix.duplicate Mix.get Mix.andThen Mix.truthy negb].
    unfold Mix.clean_value.
    cbn [Mix.tracklist Mix.categories Mix.info Mix.processed_tracks Mix.tracks
         Mix.get Mix.andThen].
    rewrite Hc. reflexivity.
Qed.

Lemma fetched_document_exported_witness :
  exists mix_data,
    Mix.parse_tracklists
      [("/w/a",
        Mix.fetched {| date := "1999-01-02"; artists := ["Sasha"]; venue := "" |}
          ("{{StandardShow 2h}}" ++ nl ++ "== Tracklist ==" ++ nl
           ++ "# A - B [C]" ++ nl ++ ";Hour 2" ++ nl ++ "???" ++ nl
           ++ "[[Category:Sasha]]" ++ nl ++ "[[Category:House]]"))]
    = Mix.Done
        ([("/w/a", mix_data)],
         if Mix.filled (Some (Some ["# A - B [C]"; ";Hour 2"; "???"]))
            && Mix.filled (Some (Some ["Sasha"; "House"]))
         then [] else [Mix.PrintUrl ("https://www.mixesdb.com" ++ "/w/a")]) /\
    Mix.clean_data [("/w/a", mix_data)]
    = Mix.Done
        [{| Mix.f_date :=
              date {| date := "1999-01-02"; artists := ["Sasha"]; venue := "" |};
            Mix.f_artists :=
              artists {| date := "1999-01-02"; artists := ["Sasha"]; venue := "" |};
            Mix.f_length :=
              match
                Mix.length_search
                  ("{{StandardShow 2h}}" ++ nl ++ "== Tracklist ==" ++ nl
                   ++ "# A - B [C]" ++ nl ++ ";Hour 2" ++ nl ++ "???" ++ nl
                   ++ "[[Category:Sasha]]" ++ nl ++ "[[Category:House]]")
              with
              | Some m => m
              | None => "?"
              end;
            Mix.f_categories := ["House"];
            Mix.f_tracklist :=
              map (fun t => extract_fields (cleaned t))
                  (filter kept ["# A - B [C]"; ";Hour 2"; "???"]);
            Mix.f_duplicate := DupBool false;
            Mix.f_url := "/w/a" |}].
Proof.
  apply fetched_document_exported; reflexivity.
Defined.
